(** * async_connector: the request-retry-and-audit engine

    A shallow embedding of the two connector classes of the repository,
    [AsyncConnector] (AsyncConnector.py) and [Connector] (async_connector.py):
    the constructor that opens the log file and recovers the next call
    identifier, and the [get] coroutine with its attempt loop, its except
    clauses and its logging.

    Conventions of the model.
    - A Python [str] is a [string]; its characters are the 256 code points
      that [ascii] offers, and [len] counts characters.
    - A Python [int] is a [Z].
    - The log file is its text.  Every [write] is followed by [flush], so the
      text of the file is always the text written so far.  Newlines are
      written as they are (POSIX); reading applies universal newlines.
    - The HTTP client, the clock, [json.dumps], [str] on floats and
      [traceback.format_exc] are outside the repository: the first two are
      inputs of [get] (one [attempt_env] per loop iteration), the others are
      the fields of [PyRuntime].
    - Exceptions are the classes that derive from [Exception]; the
      cancellation of a call (asyncio.CancelledError) is not modelled.
    - The calls of [get] on one connector run one after the other, except
      in [overtaken], which lets two calls wait for their bodies at the same
      time. *)

From Stdlib Require Import ZArith List String Ascii Bool Lia.
From Stdlib Require Import DecimalString DecimalPos DecimalZ Sorting.Sorted.
Import ListNotations.

Local Open Scope string_scope.
Local Open Scope Z_scope.

(** ** Python strings and integers *)

Module Py.

Definition LF : ascii := "010"%char.
Definition CR : ascii := "013"%char.
Definition nl : string := String LF EmptyString.

(** [len(s)] *)
Definition len (s : string) : Z := Z.of_nat (String.length s).

(** [sep.join(l)] *)
Fixpoint join (sep : string) (l : list string) : string :=
  match l with
  | [] => EmptyString
  | [x] => x
  | x :: tl => x ++ sep ++ join sep tl
  end.

(** [s.startswith(p)] *)
Fixpoint startswith (p s : string) : bool :=
  match p, s with
  | EmptyString, _ => true
  | String _ _, EmptyString => false
  | String a p', String b s' => Ascii.eqb a b && startswith p' s'
  end.

(** [sub in s] on strings *)
Fixpoint contains (sub s : string) : bool :=
  startswith sub s ||
  match s with
  | EmptyString => false
  | String _ s' => contains sub s'
  end.

(** [s.split(';')[0]]: the text before the first semicolon, the whole
    string when there is none. *)
Fixpoint first_field (s : string) : string :=
  match s with
  | EmptyString => EmptyString
  | String c s' => if Ascii.eqb c ";" then EmptyString else String c (first_field s')
  end.

(** The characters [int()] skips at both ends of its argument: tab, line
    feed, vertical tab, form feed, carriage return, space, and among the
    code points above 127 the next-line and no-break-space characters. *)
Definition is_space (c : ascii) : bool :=
  let n := nat_of_ascii c in
  ((9 <=? n) && (n <=? 13) || (n =? 32) || (n =? 133) || (n =? 160))%nat.

Fixpoint lstrip (s : string) : string :=
  match s with
  | EmptyString => EmptyString
  | String c s' => if is_space c then lstrip s' else s
  end.

Fixpoint rstrip (s : string) : string :=
  match s with
  | EmptyString => EmptyString
  | String c s' =>
      match rstrip s' with
      | EmptyString => if is_space c then EmptyString else String c EmptyString
      | r => String c r
      end
  end.

Definition strip (s : string) : string := rstrip (lstrip s).

Definition digit_of (c : ascii) : option Z :=
  let n := nat_of_ascii c in
  if ((48 <=? n) && (n <=? 57))%nat then Some (Z.of_nat n - 48) else None.

(** The digits of a decimal literal, left to right.  One underscore is
    allowed between two digits; [seen] tells whether the previous character
    was a digit. *)
Fixpoint digits (s : string) (acc : Z) (seen : bool) : option Z :=
  match s with
  | EmptyString => if seen then Some acc else None
  | String c s' =>
      match digit_of c with
      | Some d => digits s' (10 * acc + d) true
      | None => if Ascii.eqb c "_" && seen then digits s' acc false else None
      end
  end.

(** [int(s)] in base ten; [None] is [ValueError].  Among the 256 characters
    of the model the decimal digits are the ten ASCII ones.  The limit that
    recent interpreters put on the number of digits is not modelled. *)
Definition int (s : string) : option Z :=
  match strip s with
  | EmptyString => None
  | String c rest =>
      if Ascii.eqb c "-" then option_map Z.opp (digits rest 0 false)
      else if Ascii.eqb c "+" then digits rest 0 false
      else digits (String c rest) 0 false
  end.

(** [str(n)] for an [int] *)
Definition str_int (n : Z) : string := NilZero.string_of_int (Z.to_int n).

(** [str(b)] for a [bool] *)
Definition str_bool (b : bool) : string := if b then "True" else "False".

(** Universal newlines, as text-mode reading applies them: a carriage
    return, alone or followed by a line feed, is read as one line feed. *)
Fixpoint universal_newlines (s : string) : string :=
  match s with
  | EmptyString => EmptyString
  | String c s' =>
      if Ascii.eqb c CR then
        String LF
          match s' with
          | EmptyString => EmptyString
          | String c2 s'' =>
              if Ascii.eqb c2 LF then universal_newlines s'' else universal_newlines s'
          end
      else String c (universal_newlines s')
  end.

(** The lines of a text, each with its line feed; [cur] is the part of the
    current line already read. *)
Fixpoint splitlines (s cur : string) : list string :=
  match s with
  | EmptyString => match cur with EmptyString => [] | _ => [cur] end
  | String c s' =>
      if Ascii.eqb c LF then (cur ++ nl) :: splitlines s' EmptyString
      else splitlines s' (cur ++ String c EmptyString)
  end.

(** [f.readlines()] on a file opened in text mode for reading *)
Definition readlines (content : string) : list string :=
  splitlines (universal_newlines content) EmptyString.

(** [s.split(sep)] for a separator of one character; [cur] is the part of
    the current field already read. *)
Fixpoint split_from (sep : ascii) (s cur : string) : list string :=
  match s with
  | EmptyString => [cur]
  | String c s' =>
      if Ascii.eqb c sep then cur :: split_from sep s' EmptyString
      else split_from sep s' (cur ++ String c EmptyString)
  end.

Definition split (sep : ascii) (s : string) : list string :=
  split_from sep s EmptyString.

(** Predicates on the characters of a string. *)
Fixpoint all_chars (P : ascii -> bool) (s : string) : bool :=
  match s with
  | EmptyString => true
  | String c s' => P c && all_chars P s'
  end.

Definition is_digit (c : ascii) : bool :=
  match digit_of c with Some _ => true | None => false end.

Definition not_semicolon (c : ascii) : bool := negb (Ascii.eqb c ";").

Definition not_newline (c : ascii) : bool :=
  negb (Ascii.eqb c LF) && negb (Ascii.eqb c CR).

End Py.

(** ** What lies outside the repository *)

(** The exceptions an attempt can meet, by the except clause that catches
    them. *)
Inductive exn : Type :=
| ClientConnectionError            (* aiohttp.ClientConnectionError *)
| TimeoutError                     (* asyncio.TimeoutError *)
| TypeError                        (* a membership test on None *)
| NameError                        (* a global name that is not defined *)
| OtherError (what : string).      (* any other subclass of Exception *)

Class PyRuntime : Type := {
  pyfloat : Type;                          (* float, as time.time() returns *)
  fsub : pyfloat -> pyfloat -> pyfloat;    (* a - b on floats *)
  str_float : pyfloat -> string;           (* str(x) on a float *)
  pyobj : Type;                            (* what response.json() returns *)
  json_dumps : pyobj -> string;            (* json.dumps(r) *)
  format_exc : exn -> string               (* traceback.format_exc() *)
}.

(** How a try block is left. *)
Inductive try_exit (A : Type) : Type :=
| Raised (e : exn)
| Continued
| Returned (v : A).
Arguments Raised {A} e.
Arguments Continued {A}.
Arguments Returned {A} v.

(** How one iteration of the loop ends. *)
Inductive iteration (A : Type) : Type :=
| Next
| Return (v : A)
| Raise (e : exn).
Arguments Next {A}.
Arguments Return {A} v.
Arguments Raise {A} e.

(** How a call of [get] ends: with a value, with None after the loop, or
    with an exception that reaches the caller. *)
Inductive outcome (A : Type) : Type :=
| Value (v : A)
| NoValue
| Propagated (e : exn).
Arguments Value {A} v.
Arguments NoValue {A}.
Arguments Propagated {A} e.

Section Model.
Context {RT : PyRuntime}.

(** What the HTTP client answers to one [session.get]. *)
Record response : Type := {
  status : Z;                        (* response.status *)
  final_url : string;                (* str(response.url) *)
  content_type : option string;      (* response.headers.get('Content-Type') *)
  body_json : exn + pyobj;           (* await response.json() *)
  body_text : exn + string           (* await response.text() *)
}.

Inductive http_result : Type :=
| GetRaises (e : exn)
| Responds (resp : response).

(** The surroundings of one loop iteration: the clock readings and the
    answer of the HTTP client.  [t_resp] is read when the response has
    arrived, [t_fin] in the finally clause (AsyncConnector) or in the
    except clause (Connector). *)
Record attempt_env : Type := {
  t_start : pyfloat;
  t_resp : pyfloat;
  t_fin : pyfloat;
  http : http_result
}.

(** ** The data model *)

(** One row of the log, in the order of the list [row] of the source. *)
Record row : Type := {
  row_call_id : Z;
  row_project : string;
  row_t : pyfloat;
  row_delta_t : pyfloat;
  row_url : string;
  row_redirect_url : string;
  row_response_size : Z;
  row_response_code : option Z;      (* None is the empty string *)
  row_success : bool;
  row_error : string
}.

(** [map(str, row)] *)
Definition row_fields (r : row) : list string :=
  [ Py.str_int (row_call_id r);
    row_project r;
    str_float (row_t r);
    str_float (row_delta_t r);
    row_url r;
    row_redirect_url r;
    Py.str_int (row_response_size r);
    match row_response_code r with Some code => Py.str_int code | None => EmptyString end;
    Py.str_bool (row_success r);
    row_error r ].

(** [';'.join(map(str, row))] *)
Definition row_line (r : row) : string := Py.join ";" (row_fields r).

(** The attributes of a connector.  [log] is the text of the log file;
    [call_id] is the attribute [self.call_id] of AsyncConnector and
    [self.id] of Connector. *)
Record connector : Type := {
  n_tries : Z;
  timeout : Z;
  call_id : Z;
  log : string
}.

(** What [get] does to the world, in order. *)
Inductive event : Type :=
| EvGet (url : string) (tmo : Z)    (* session.get(url, timeout=tmo) *)
| EvWrite (r : row)                 (* self.log.write(...); self.log.flush() *)
| EvSleep (delay : Z).              (* await asyncio.sleep(delay) *)

(** The payload [get] returns in AsyncConnector. *)
Inductive payload : Type :=
| PJson (r : pyobj)
| PText (r : string).

(** ** A state and trace monad for the body of [get] *)

Definition M (A : Type) : Type := connector -> A * connector * list event.

Definition ret {A : Type} (a : A) : M A := fun c => (a, c, []).

Definition bind {A B : Type} (m : M A) (f : A -> M B) : M B :=
  fun c =>
    let '(a, c1, tr1) := m c in
    let '(b, c2, tr2) := f a c1 in
    (b, c2, (tr1 ++ tr2)%list).

Local Notation "x <- m ;; k" := (bind m (fun x => k))
  (at level 61, m at next level, right associativity).
Local Notation "m ;; k" := (bind m (fun _ => k))
  (at level 61, right associativity).

Definition read {A : Type} (f : connector -> A) : M A := fun c => (f c, c, []).

Definition emit (e : event) : M unit := fun c => (tt, c, [e]).

(** [current = self.call_id; self.call_id += 1] *)
Definition next_id : M Z :=
  fun c =>
    (call_id c,
     {| n_tries := n_tries c; timeout := timeout c;
        call_id := call_id c + 1; log := log c |},
     []).

(** [self.log.write('\n' + ';'.join(map(str, row))); self.log.flush()] *)
Definition log_write (r : row) : M unit :=
  fun c =>
    (tt,
     {| n_tries := n_tries c; timeout := timeout c;
        call_id := call_id c; log := log c ++ Py.nl ++ row_line r |},
     [EvWrite r]).

(** [await asyncio.sleep(delay)] *)
Definition sleep (delay : Z) : M unit := emit (EvSleep delay).

(** ** The constructor, common to both classes *)

(** The text of the log file once the constructor has opened it: mode 'w'
    truncates and the header is written, mode 'a' leaves the text as it is.
    [logfile] is the text of the file at that path, [None] when
    [os.path.isfile] is false. *)
Definition open_log (header : list string) (logfile : option string)
    (overwrite_log : bool) : string :=
  match logfile with
  | Some old => if overwrite_log then Py.join ";" header ++ Py.nl else old
  | None => Py.join ";" header ++ Py.nl
  end.

(** The next call id, from the lines of the file. *)
Definition recover_call_id (lines : list string) : Z :=
  if (List.length lines <=? 1)%nat then 0
  else
    let last_line := last lines EmptyString in
    let last_id := Py.first_field last_line in
    match Py.int last_id with
    | Some n => n + 1
    | None => 0
    end.

Definition init_with (header : list string) (logfile : option string)
    (overwrite_log : bool) (n_tries timeout : Z) : connector :=
  let text := open_log header logfile overwrite_log in
  {| n_tries := n_tries; timeout := timeout;
     call_id := recover_call_id (Py.readlines text);
     log := text |}.

(** ** Reading a trace *)

Fixpoint rows_of (tr : list event) : list row :=
  match tr with
  | [] => []
  | EvWrite r :: tl => r :: rows_of tl
  | _ :: tl => rows_of tl
  end.

Fixpoint sleeps_of (tr : list event) : list Z :=
  match tr with
  | [] => []
  | EvSleep d :: tl => d :: sleeps_of tl
  | _ :: tl => sleeps_of tl
  end.

(** The text that writing the rows [rs] adds to the log. *)
Fixpoint render_rows (rs : list row) : string :=
  match rs with
  | [] => EmptyString
  | r :: tl => Py.nl ++ row_line r ++ render_rows tl
  end.

End Model.

Notation "x <- m ;; k" := (bind m (fun x => k))
  (at level 61, m at next level, right associativity).
Notation "m ;; k" := (bind m (fun _ => k))
  (at level 61, right associativity).

(** ** AsyncConnector.py *)

Module AsyncConnector.
Section WithRuntime.
Context {RT : PyRuntime}.

Definition header : list string :=
  ["call_id"; "project"; "t"; "delta_t"; "url"; "redirect_url";
   "response_size"; "response_code"; "success"; "error"].

(** [AsyncConnector.__init__] *)
Definition init (logfile : option string) (overwrite_log : bool)
    (n_tries timeout : Z) : connector :=
  init_with header logfile overwrite_log n_tries timeout.

(** [AsyncConnector.rate_limit], a static method *)
Definition rate_limit (delay : Z) : M unit := sleep delay.

(** The payload and its size, by the content type. *)
Definition decode (resp : response) (content_type : string) : exn + (payload * Z) :=
  if Py.contains "json" content_type then
    match body_json resp with
    | inl e => inl e
    | inr r => inr (PJson r, Py.len (json_dumps r))
    end
  else
    match body_text resp with
    | inl e => inl e
    | inr r => inr (PText r, Py.len r)
    end.

(** The try block of one iteration, up to and including [return r]. *)
Definition try_block (url project_name : string) (a : attempt_env)
    : M (try_exit payload) :=
  tmo <- read timeout ;;
  emit (EvGet url tmo) ;;
  match http a with
  | GetRaises e => ret (Raised e)
  | Responds resp =>
      let error := EmptyString in
      let success := true in
      let redirect_url := final_url resp in
      let dt := fsub (t_resp a) (t_start a) in
      let response_code := status resp in
      current_call_id <- next_id ;;
      match content_type resp with
      | None => ret (Raised TypeError)
      | Some ct =>
          match decode resp ct with
          | inl e => ret (Raised e)
          | inr (r, size) =>
              let row :=
                {| row_call_id := current_call_id; row_project := project_name;
                   row_t := t_start a; row_delta_t := dt; row_url := url;
                   row_redirect_url := redirect_url; row_response_size := size;
                   row_response_code := Some response_code;
                   row_success := success; row_error := error |} in
              if 500 <=? response_code then
                tmo <- read timeout ;;
                rate_limit tmo ;;
                ret Continued
              else
                log_write row ;;
                ret (Returned r)
          end
      end
  end.

(** The except clauses: the values of [error] and [success] they set. *)
Definition except_clauses (e : exn) : string * bool :=
  match e with
  | ClientConnectionError => ("Connection error", false)
  | TimeoutError => ("Timeout error", false)
  | _ => (format_exc e, false)
  end.

(** The finally clause; [error] and [success] are the local variables as
    the try block or the except clause left them. *)
Definition finally_clause (url project_name : string) (a : attempt_env)
    (error : string) (success : bool) : M unit :=
  let t_end := t_fin a in
  let redirect_url := EmptyString in
  let dt := fsub t_end (t_start a) in
  let size := 0 in
  current_call_id <- next_id ;;
  let row :=
    {| row_call_id := current_call_id; row_project := project_name;
       row_t := t_start a; row_delta_t := dt; row_url := url;
       row_redirect_url := redirect_url; row_response_size := size;
       row_response_code := None;
       row_success := success; row_error := error |} in
  log_write row ;;
  tmo <- read timeout ;;
  rate_limit tmo.

(** One iteration of the loop: try, except, finally.  The finally clause
    runs however the try block is left. *)
Definition attempt (url project_name : string) (a : attempt_env)
    : M (iteration payload) :=
  x <- try_block url project_name a ;;
  let '(error, success) :=
    match x with
    | Raised e => except_clauses e
    | Continued | Returned _ => (EmptyString, true)
    end in
  finally_clause url project_name a error success ;;
  ret (match x with
       | Returned r => Return r
       | Continued | Raised _ => Next
       end).

(** The loop [for _ in range(self.n_tries)], from iteration [i] on with
    [todo] iterations left. *)
Fixpoint attempts (todo i : nat) (url project_name : string)
    (env : nat -> attempt_env) : M (outcome payload) :=
  match todo with
  | O => ret NoValue
  | S todo' =>
      x <- attempt url project_name (env i) ;;
      match x with
      | Return r => ret (Value r)
      | Raise e => ret (Propagated e)
      | Next => attempts todo' (S i) url project_name env
      end
  end.

(** [AsyncConnector.get]; [env i] is what iteration [i] meets. *)
Definition get (url project_name : string) (env : nat -> attempt_env)
    : M (outcome payload) :=
  fun c => attempts (Z.to_nat (n_tries c)) 0 url project_name env c.

End WithRuntime.
End AsyncConnector.

(** ** async_connector.py *)

Module Connector.
Section WithRuntime.
Context {RT : PyRuntime}.

Definition header : list string :=
  ["id"; "project"; "t"; "delta_t"; "url"; "redirect_url";
   "response_size"; "response_code"; "success"; "error"].

(** [Connector.__init__] *)
Definition init (logfile : option string) (overwrite_log : bool)
    (n_tries timeout : Z) : connector :=
  init_with header logfile overwrite_log n_tries timeout.

(** The name [rate_limit] as [get] looks it up.  The function of that name
    is defined in the body of the class, so it is an attribute of
    [Connector]; the module has no global of that name and [get] has no
    such local, and evaluating the name raises NameError. *)
Definition lookup_rate_limit : option (Z -> M unit) := None.

(** What [get] returns: [r, response_code, call_id]. *)
Definition result : Type := pyobj * Z * Z.

(** The try block of iteration [n]. *)
Definition try_block (n : Z) (url project_name : string) (a : attempt_env)
    : M (try_exit result) :=
  tmo <- read timeout ;;
  emit (EvGet url tmo) ;;
  match http a with
  | GetRaises e => ret (Raised e)
  | Responds resp =>
      match body_json resp with
      | inl e => ret (Raised e)
      | inr r =>
          let error := EmptyString in
          let success := true in
          let redirect_url := final_url resp in
          let dt := fsub (t_resp a) (t_start a) in
          let size := Py.len (json_dumps r) in
          let response_code := status resp in
          call_id <- next_id ;;
          let row :=
            {| row_call_id := call_id; row_project := project_name;
               row_t := t_start a; row_delta_t := dt; row_url := url;
               row_redirect_url := redirect_url; row_response_size := size;
               row_response_code := Some response_code;
               row_success := success; row_error := error |} in
          if 500 <=? response_code then
            match lookup_rate_limit with
            | None => ret (Raised NameError)
            | Some rate_limit =>
                tmo <- read timeout ;;
                rate_limit (tmo * n ^ 2) ;;
                ret Continued
            end
          else
            log_write row ;;
            ret (Returned (r, response_code, call_id))
      end
  end.

(** The clause [except Exception as e] of iteration [n]; the result is the
    exception that leaves the clause, if one does. *)
Definition except_clause (n : Z) (url project_name : string) (a : attempt_env)
    (e : exn) : M (option exn) :=
  let t_end := t_fin a in
  let error := format_exc e in
  let success := false in
  let redirect_url := EmptyString in
  let dt := fsub t_end (t_start a) in
  let size := 0 in
  call_id <- next_id ;;
  let row :=
    {| row_call_id := call_id; row_project := project_name;
       row_t := t_start a; row_delta_t := dt; row_url := url;
       row_redirect_url := redirect_url; row_response_size := size;
       row_response_code := None;
       row_success := success; row_error := error |} in
  log_write row ;;
  match lookup_rate_limit with
  | None => ret (Some NameError)
  | Some rate_limit =>
      tmo <- read timeout ;;
      rate_limit (tmo * n ^ 2) ;;
      ret None
  end.

Definition attempt (n : Z) (url project_name : string) (a : attempt_env)
    : M (iteration result) :=
  x <- try_block n url project_name a ;;
  match x with
  | Returned v => ret (Return v)
  | Continued => ret Next
  | Raised e =>
      y <- except_clause n url project_name a e ;;
      match y with
      | Some e' => ret (Raise e')
      | None => ret Next
      end
  end.

(** The loop [for n in range(self.n_tries)]. *)
Fixpoint attempts (todo i : nat) (url project_name : string)
    (env : nat -> attempt_env) : M (outcome result) :=
  match todo with
  | O => ret NoValue
  | S todo' =>
      x <- attempt (Z.of_nat i) url project_name (env i) ;;
      match x with
      | Return v => ret (Value v)
      | Raise e => ret (Propagated e)
      | Next => attempts todo' (S i) url project_name env
      end
  end.

(** [Connector.get] *)
Definition get (url project_name : string) (env : nat -> attempt_env)
    : M (outcome result) :=
  fun c => attempts (Z.to_nat (n_tries c)) 0 url project_name env c.

End WithRuntime.
End Connector.

(** ** Vocabulary of the statements *)

Section Vocabulary.
Context {RT : PyRuntime}.

(** The row written when an attempt has not produced a response to log:
    by the finally clause of AsyncConnector, by the except clause of
    Connector. *)
Definition failure_row (id : Z) (url project_name : string) (a : attempt_env)
    (error : string) (success : bool) : row :=
  {| row_call_id := id; row_project := project_name;
     row_t := t_start a; row_delta_t := fsub (t_fin a) (t_start a);
     row_url := url; row_redirect_url := EmptyString;
     row_response_size := 0; row_response_code := None;
     row_success := success; row_error := error |}.

(** The row the try block builds from a response. *)
Definition response_row (id : Z) (url project_name : string) (a : attempt_env)
    (resp : response) (size : Z) : row :=
  {| row_call_id := id; row_project := project_name;
     row_t := t_start a; row_delta_t := fsub (t_resp a) (t_start a);
     row_url := url; row_redirect_url := final_url resp;
     row_response_size := size; row_response_code := Some (status resp);
     row_success := true; row_error := EmptyString |}.

(** The connector [c] after [k] call ids were taken and [text] was
    written to the log. *)
Definition advanced (c : connector) (k : Z) (text : string) : connector :=
  {| n_tries := n_tries c; timeout := timeout c;
     call_id := call_id c + k; log := log c ++ text |}.

Definition call_ids (rs : list row) : list Z := map row_call_id rs.

(** The ids increase strictly and start at [lo] or above. *)
Fixpoint increasing_from (lo : Z) (ids : list Z) : Prop :=
  match ids with
  | [] => True
  | x :: tl => lo <= x /\ increasing_from (x + 1) tl
  end.

(** The row takes one line of the log: no field holds a line break. *)
Definition single_line (r : row) : bool :=
  Py.all_chars Py.not_newline (row_line r).

(** The text of a log that was created with [header] and to which the rows
    [rs] were written. *)
Definition log_text (header : list string) (rs : list row) : string :=
  Py.join ";" header ++ Py.nl ++ render_rows rs.

(** The log invariant: the file holds the rows [rs], their call ids
    increase strictly, and the next call id is above all of them. *)
Record log_inv (header : list string) (rs : list row) (c : connector) : Prop := {
  inv_text : log c = log_text header rs;
  inv_sorted : StronglySorted Z.lt (call_ids rs);
  inv_next : Forall (fun id => id < call_id c) (call_ids rs)
}.

(** The delays slept between one request and the next, for every pair of
    consecutive requests of a trace; [cur] collects the delays since the
    last request. *)
Fixpoint waits_after (tr : list event) (cur : list Z) : list (list Z) :=
  match tr with
  | [] => []
  | EvGet _ _ :: tl => cur :: waits_after tl []
  | EvSleep d :: tl => waits_after tl (cur ++ [d])%list
  | EvWrite _ :: tl => waits_after tl cur
  end.

Fixpoint waits_between (tr : list event) : list (list Z) :=
  match tr with
  | [] => []
  | EvGet _ _ :: tl => waits_after tl []
  | _ :: tl => waits_between tl
  end.

(** A wait made of one or two sleeps of [tmo] seconds each. *)
Definition flat_wait (tmo : Z) (w : list Z) : Prop :=
  w = [tmo] \/ w = [tmo; tmo].

Definition total (delays : list Z) : Z := fold_right Z.add 0 delays.

Definition requests_of (tr : list event) : nat :=
  List.length (filter (fun e => match e with EvGet _ _ => true | _ => false end) tr).

(** The attempt got a response with a status of 500 or more. *)
Definition server_error (a : attempt_env) : Prop :=
  exists resp, http a = Responds resp /\ 500 <= status resp.

(** The attempt got a response with a status of 500 or more, a content
    type and a body that AsyncConnector decodes. *)
Definition decoded_server_error (a : attempt_env) : Prop :=
  exists resp ct r size,
    http a = Responds resp /\ content_type resp = Some ct /\
    AsyncConnector.decode resp ct = inr (r, size) /\ 500 <= status resp.

(** The try block of Connector does not reach [return]: the request raises,
    reading the body as JSON raises, or the status is 500 or more. *)
Definition connector_failure (a : attempt_env) : bool :=
  match http a with
  | GetRaises _ => true
  | Responds resp =>
      match body_json resp with
      | inl _ => true
      | inr _ => 500 <=? status resp
      end
  end.

(** The text of a log as the words of the specification have it: the header
    line, then one line for each record, every line ended by the line
    separator. *)
Definition spec_log_text (header : list string) (rs : list row) : string :=
  Py.join ";" header ++ Py.nl ++
  String.concat EmptyString (map (fun r => row_line r ++ Py.nl) rs).

End Vocabulary.

(** ** Sample surroundings, for evaluating the model *)

Module Sample.

Definition exc_name (e : exn) : string :=
  match e with
  | ClientConnectionError => "aiohttp.client_exceptions.ClientConnectionError"
  | TimeoutError => "asyncio.exceptions.TimeoutError"
  | TypeError => "TypeError: argument of type 'NoneType' is not iterable"
  | NameError => "NameError: name 'rate_limit' is not defined"
  | OtherError what => what
  end.

(** A runtime in which floats are whole numbers of seconds and JSON
    documents are lists of integers. *)
Definition runtime : PyRuntime :=
  {| pyfloat := Z;
     fsub := Z.sub;
     str_float := fun x => Py.str_int x ++ ".0";
     pyobj := list Z;
     json_dumps := fun l => "[" ++ Py.join ", " (map Py.str_int l) ++ "]";
     format_exc := fun e =>
       "Traceback (most recent call last):" ++ Py.nl ++ exc_name e ++ Py.nl |}.

Definition at_time (h : @http_result runtime) : @attempt_env runtime :=
  @Build_attempt_env runtime 1000 1002 1003 h.

Definition ok_json : @response runtime :=
  @Build_response runtime 200 "http://example.org/a"
    (Some "application/json")
    (inr [1; 2; 3]) (inr "[1,2,3]").

Definition ok_text : @response runtime :=
  @Build_response runtime 200 "http://example.org/a"
    (Some "text/plain")
    (inl (OtherError "aiohttp.client_exceptions.ContentTypeError")) (inr "hello").

Definition busy_text : @response runtime :=
  @Build_response runtime 503 "http://example.org/a"
    (Some "text/plain")
    (inl (OtherError "aiohttp.client_exceptions.ContentTypeError")) (inr "oops").

Definition no_content_type : @response runtime :=
  @Build_response runtime 200 "http://example.org/a"
    None
    (inl (OtherError "aiohttp.client_exceptions.ContentTypeError")) (inr "hello").

(** Every attempt gets the same answer. *)
Definition always (h : @http_result runtime) : nat -> @attempt_env runtime :=
  fun _ => at_time h.

(** The first [k] attempts get [h1], the later ones [h2]. *)
Definition first_then (k : nat) (h1 h2 : @http_result runtime)
    : nat -> @attempt_env runtime :=
  fun i => at_time (if (i <? k)%nat then h1 else h2).

(** A connector on a log file that did not exist. *)
Definition fresh (n_tries timeout : Z) : connector :=
  AsyncConnector.init None false n_tries timeout.

Definition fresh_connector (n_tries timeout : Z) : connector :=
  Connector.init None false n_tries timeout.

(** The run of one call on a created log, every attempt answered 200 with a
    JSON body, and the log it leaves. *)
Definition json_run : outcome (@payload runtime) * connector * list (@event runtime) :=
  @AsyncConnector.get runtime "http://example.org" "demo"
    (always (Responds ok_json)) (fresh 3 5).

(** The run of one call of one attempt that meets a connection error. *)
Definition failed_run : outcome (@payload runtime) * connector * list (@event runtime) :=
  @AsyncConnector.get runtime "http://example.org" "demo"
    (always (GetRaises ClientConnectionError)) (fresh 1 5).

(** The run of one call of one attempt that gets no Content-Type header. *)
Definition untyped_run : outcome (@payload runtime) * connector * list (@event runtime) :=
  @AsyncConnector.get runtime "http://example.org" "demo"
    (always (Responds no_content_type)) (fresh 1 5).

(** The run of one call of one attempt that gets 503 with a text body. *)
Definition busy_run : outcome (@payload runtime) * connector * list (@event runtime) :=
  @AsyncConnector.get runtime "http://example.org" "demo"
    (always (Responds busy_text)) (fresh 1 5).

End Sample.

(** ** Vocabulary of the further properties *)

Section MoreVocabulary.
Context {RT : PyRuntime}.

(** The try block of AsyncConnector raises [e]: at the request, at the
    membership test on a missing content type, or while the body is read. *)
Definition attempt_raises (a : attempt_env) (e : exn) : Prop :=
  http a = GetRaises e \/
  exists resp,
    http a = Responds resp /\
    ((content_type resp = None /\ e = TypeError) \/
     (exists ct, content_type resp = Some ct /\
                 AsyncConnector.decode resp ct = inl e)).

(** The value the except clauses of AsyncConnector give to [error]. *)
Definition error_text (e : exn) : string :=
  match e with
  | ClientConnectionError => "Connection error"
  | TimeoutError => "Timeout error"
  | _ => format_exc e
  end.

(** The number of semicolons of a text. *)
Fixpoint semicolons (s : string) : nat :=
  match s with
  | EmptyString => O
  | String c s' => ((if Ascii.eqb c ";" then 1 else 0) + semicolons s')%nat
  end.

(** The text has no carriage return. *)
Definition no_cr (s : string) : bool :=
  Py.all_chars (fun c => negb (Ascii.eqb c Py.CR)) s.

(** The text has no line feed. *)
Definition no_lf (s : string) : bool :=
  Py.all_chars (fun c => negb (Ascii.eqb c Py.LF)) s.

End MoreVocabulary.

(** ** More sample surroundings *)

Module MoreSample.

(** A 404 answer with a JSON body. *)
Definition not_found_json : @response Sample.runtime :=
  @Build_response Sample.runtime 404 "http://example.org/missing"
    (Some "application/json")
    (inr [4; 0; 4]) (inr "[4, 0, 4]").

(** A connector of either class created with [n_tries = 0]. *)
Definition no_tries : connector := AsyncConnector.init None false 0 5.

End MoreSample.

(** ** Two calls on one connector *)

Section Interleaving.
Context {RT : PyRuntime}.

(** What the try block of AsyncConnector holds when it is suspended at
    [await response.json()] or [await response.text()]: the call id is
    taken, the row is not written yet.  [LeftEarly] is a try block that was
    left before that point. *)
Inductive suspended : Type :=
| LeftEarly (x : try_exit payload)
| AwaitingBody (resp : response) (ct : string) (current_call_id : Z).

(** The try block of AsyncConnector up to the await of the body. *)
Definition try_block_until_body (url : string) (a : attempt_env) : M suspended :=
  tmo <- read timeout ;;
  emit (EvGet url tmo) ;;
  match http a with
  | GetRaises e => ret (LeftEarly (Raised e))
  | Responds resp =>
      current_call_id <- next_id ;;
      match content_type resp with
      | None => ret (LeftEarly (Raised TypeError))
      | Some ct => ret (AwaitingBody resp ct current_call_id)
      end
  end.

(** The try block of AsyncConnector from the await of the body on. *)
Definition try_block_from_body (url project_name : string) (a : attempt_env)
    (s : suspended) : M (try_exit payload) :=
  match s with
  | LeftEarly x => ret x
  | AwaitingBody resp ct current_call_id =>
      match AsyncConnector.decode resp ct with
      | inl e => ret (Raised e)
      | inr (r, size) =>
          let row :=
            {| row_call_id := current_call_id; row_project := project_name;
               row_t := t_start a;
               row_delta_t := fsub (t_resp a) (t_start a); row_url := url;
               row_redirect_url := final_url resp; row_response_size := size;
               row_response_code := Some (status resp);
               row_success := true; row_error := EmptyString |} in
          if 500 <=? status resp then
            tmo <- read timeout ;;
            AsyncConnector.rate_limit tmo ;;
            ret Continued
          else
            log_write row ;;
            ret (Returned r)
      end
  end.

(** The rest of the iteration: the end of the try block, the except
    clauses and the finally clause. *)
Definition attempt_from_body (url project_name : string) (a : attempt_env)
    (s : suspended) : M (iteration payload) :=
  x <- try_block_from_body url project_name a s ;;
  let '(error, success) :=
    match x with
    | Raised e => AsyncConnector.except_clauses e
    | Continued | Returned _ => (EmptyString, true)
    end in
  AsyncConnector.finally_clause url project_name a error success ;;
  ret (match x with
       | Returned r => Return r
       | Continued | Raised _ => Next
       end).

(** Two calls of [get] that run together on one connector, each at its
    first attempt: both wait for their bodies, the body of the second call
    arrives first, and the first call goes on while the second one sleeps.
    The result is how the attempt of each call ends. *)
Definition overtaken (url first second : string) (a_first a_second : attempt_env)
    : M (iteration payload * iteration payload) :=
  s1 <- try_block_until_body url a_first ;;
  s2 <- try_block_until_body url a_second ;;
  x2 <- attempt_from_body url second a_second s2 ;;
  x1 <- attempt_from_body url first a_first s1 ;;
  ret (x1, x2).

End Interleaving.

(** ** The log read back *)

Section ReadBack.
Context {RT : PyRuntime}.

(** The lines of the records [r :: tl] as [readlines] returns them: each
    with its line feed but the last. *)
Fixpoint lines_from (r : row) (tl : list row) : list string :=
  match tl with
  | [] => [row_line r]
  | r' :: tl' => (row_line r ++ Py.nl) :: lines_from r' tl'
  end.

(** The lines that follow the header line in a log with the records [rs]:
    an empty line, then the lines of the records. *)
Definition record_lines (rs : list row) : list string :=
  match rs with
  | [] => []
  | r :: tl => Py.nl :: lines_from r tl
  end.

(** The fields of a row that are free text or rendered by the runtime;
    the other four are integers, a boolean or empty. *)
Definition text_fields (r : row) : list string :=
  [row_project r; str_float (row_t r); str_float (row_delta_t r);
   row_url r; row_redirect_url r; row_error r].

(** No text field of the row holds a semicolon. *)
Definition plain_fields (r : row) : bool :=
  forallb (Py.all_chars Py.not_semicolon) (text_fields r).

End ReadBack.

(** ** Sample sessions *)

Module Session.

(** The connector that opens the log of [Sample.untyped_run] again, and
    a call on it that is answered 200 with a JSON body. *)
Definition reopened : connector :=
  AsyncConnector.init (Some (log (snd (fst Sample.untyped_run)))) false 1 5.

Definition second_run
    : outcome (@payload Sample.runtime) * connector * list (@event Sample.runtime) :=
  @AsyncConnector.get Sample.runtime "http://example.org" "demo"
    (Sample.always (Responds Sample.ok_json)) reopened.

(** Two calls that run together on a created log. *)
Definition overtaken_run
    : (iteration (@payload Sample.runtime) * iteration (@payload Sample.runtime))
      * connector * list (@event Sample.runtime) :=
  @overtaken Sample.runtime "http://example.org" "first" "second"
    (Sample.at_time (Responds Sample.ok_json))
    (Sample.at_time (Responds Sample.ok_text)) (Sample.fresh 1 5).

End Session.

(** * Facts *)

(** ** Strings *)

Module PyFacts.
Import Py.

Lemma all_chars_impl (P Q : ascii -> bool) s :
  (forall c, P c = true -> Q c = true) ->
  all_chars P s = true -> all_chars Q s = true.
Proof.
  intros HPQ. induction s as [|c s IH]; simpl; [reflexivity|].
  intros H. apply andb_true_iff in H as [Hc Hs].
  rewrite (HPQ _ Hc), (IH Hs). reflexivity.
Qed.

Ltac eval_digit :=
  match goal with
  | |- context [digit_of ?c] =>
      let v := eval vm_compute in (digit_of c) in
      change (digit_of c) with v; cbv beta iota
  end.

Lemma digits_of_uint_acc d : forall p,
  digits (NilEmpty.string_of_uint d) (Z.pos p) true = Some (Z.pos (Pos.of_uint_acc d p)).
Proof.
  induction d; intros p; cbn [NilEmpty.string_of_uint digits Pos.of_uint_acc];
    try reflexivity; eval_digit; rewrite <- IHd; f_equal; lia.
Qed.

Lemma digits_of_uint d : forall seen,
  d <> Decimal.Nil \/ seen = true ->
  digits (NilEmpty.string_of_uint d) 0 seen = Some (Z.of_N (Pos.of_uint d)).
Proof.
  induction d; intros seen H; cbn [NilEmpty.string_of_uint digits Pos.of_uint];
    try eval_digit.
  - destruct H as [H | ->]; [congruence | reflexivity].
  - apply IHd. now right.
  - apply (digits_of_uint_acc d 1).
  - apply (digits_of_uint_acc d 2).
  - apply (digits_of_uint_acc d 3).
  - apply (digits_of_uint_acc d 4).
  - apply (digits_of_uint_acc d 5).
  - apply (digits_of_uint_acc d 6).
  - apply (digits_of_uint_acc d 7).
  - apply (digits_of_uint_acc d 8).
  - apply (digits_of_uint_acc d 9).
Qed.

Lemma to_uint_not_nil p : Pos.to_uint p <> Decimal.Nil.
Proof.
  intros H. pose proof (DecimalPos.Unsigned.of_to p) as E.
  rewrite H in E. discriminate E.
Qed.

Lemma all_digits_of_uint d : all_chars is_digit (NilEmpty.string_of_uint d) = true.
Proof. induction d; simpl; auto. Qed.

Lemma digits_pos p seen :
  digits (NilEmpty.string_of_uint (Pos.to_uint p)) 0 seen = Some (Z.pos p).
Proof.
  rewrite digits_of_uint by (left; apply to_uint_not_nil).
  rewrite DecimalPos.Unsigned.of_to. reflexivity.
Qed.

Lemma digit_not_space c : is_digit c = true -> is_space c = false.
Proof.
  unfold is_digit, digit_of, is_space.
  destruct (48 <=? nat_of_ascii c)%nat eqn:E1; simpl; [|discriminate].
  destruct (nat_of_ascii c <=? 57)%nat eqn:E2; simpl; [|discriminate].
  intros _. apply Nat.leb_le in E1, E2.
  repeat rewrite orb_false_iff. repeat split.
  - apply andb_false_iff. right. apply Nat.leb_gt. lia.
  - apply Nat.eqb_neq. lia.
  - apply Nat.eqb_neq. lia.
  - apply Nat.eqb_neq. lia.
Qed.

Lemma lstrip_first c s : is_space c = false -> lstrip (String c s) = String c s.
Proof. intros H. simpl. now rewrite H. Qed.

Lemma rstrip_no_space s :
  all_chars (fun c => negb (is_space c)) s = true -> rstrip s = s.
Proof.
  induction s as [|c s IH]; simpl; [reflexivity|].
  intros H. apply andb_true_iff in H as [Hc Hs].
  rewrite (IH Hs). apply negb_true_iff in Hc.
  destruct s; [now rewrite Hc | reflexivity].
Qed.

Lemma strip_no_space s :
  all_chars (fun c => negb (is_space c)) s = true -> strip s = s.
Proof.
  intros H. unfold strip.
  destruct s as [|c s]; [reflexivity|].
  pose proof H as H'. simpl in H'. apply andb_true_iff in H' as [Hc _].
  apply negb_true_iff in Hc. rewrite (lstrip_first _ _ Hc).
  now apply rstrip_no_space.
Qed.

Lemma uint_no_space d :
  all_chars (fun c => negb (is_space c)) (NilEmpty.string_of_uint d) = true.
Proof.
  apply (all_chars_impl is_digit); [|apply all_digits_of_uint].
  intros c Hc. now rewrite (digit_not_space c Hc).
Qed.

Lemma pos_string_cons p :
  exists c s, NilEmpty.string_of_uint (Pos.to_uint p) = String c s /\ is_digit c = true.
Proof.
  pose proof (to_uint_not_nil p) as Hn.
  pose proof (all_digits_of_uint (Pos.to_uint p)) as Hd.
  destruct (Pos.to_uint p); try congruence; simpl in *;
    eexists; eexists; (split; [reflexivity | reflexivity]).
Qed.

Lemma nilzero_pos p :
  NilZero.string_of_uint (Pos.to_uint p) = NilEmpty.string_of_uint (Pos.to_uint p).
Proof.
  pose proof (to_uint_not_nil p). unfold NilZero.string_of_uint.
  destruct (Pos.to_uint p); congruence.
Qed.

Lemma digit_not_sign c :
  is_digit c = true -> Ascii.eqb c "-" = false /\ Ascii.eqb c "+" = false.
Proof.
  unfold is_digit, digit_of.
  destruct (48 <=? nat_of_ascii c)%nat eqn:E1; simpl; [|discriminate].
  intros _.
  split; apply Ascii.eqb_neq; intros ->; vm_compute in E1; discriminate E1.
Qed.

(** [int(str(n)) == n] *)
Lemma int_str_int n : int (str_int n) = Some n.
Proof.
  unfold str_int, int. destruct n as [|p|p]; cbn [Z.to_int NilZero.string_of_int].
  - reflexivity.
  - rewrite nilzero_pos, strip_no_space by apply uint_no_space.
    destruct (pos_string_cons p) as (c & s & E & Hc).
    pose proof (digits_pos p false) as Hd. rewrite E in *.
    destruct (digit_not_sign c Hc) as [-> ->]. exact Hd.
  - rewrite nilzero_pos.
    rewrite strip_no_space
      by (cbn [all_chars]; rewrite uint_no_space; reflexivity).
    change (Ascii.eqb "-" "-") with true. cbv iota.
    rewrite digits_pos. reflexivity.
Qed.

Lemma str_int_no_semicolon n : all_chars not_semicolon (str_int n) = true.
Proof.
  assert (Hd : forall d, all_chars not_semicolon (NilEmpty.string_of_uint d) = true)
    by (induction d; simpl; auto).
  unfold str_int. destruct n as [|p|p]; cbn [Z.to_int NilZero.string_of_int];
    [reflexivity | rewrite nilzero_pos; apply Hd
    | rewrite nilzero_pos; cbn [all_chars]; rewrite Hd; reflexivity].
Qed.

Lemma first_field_app a b :
  all_chars not_semicolon a = true ->
  first_field (a ++ String ";" b) = a.
Proof.
  induction a as [|c a IH]; simpl; [reflexivity|].
  intros H. apply andb_true_iff in H as [Hc Ha].
  unfold not_semicolon in Hc. apply negb_true_iff in Hc. rewrite Hc.
  now rewrite (IH Ha).
Qed.

(** *** Lines *)

Lemma universal_newlines_plain l :
  all_chars not_newline l = true -> universal_newlines l = l.
Proof.
  induction l as [|c l IH]; simpl; [reflexivity|].
  intros H. apply andb_true_iff in H as [Hc Hl].
  unfold not_newline in Hc. apply andb_true_iff in Hc as [_ Hc].
  apply negb_true_iff in Hc. rewrite Hc. now rewrite (IH Hl).
Qed.

Lemma universal_newlines_last_line_n l :
  all_chars not_newline l = true ->
  forall n s, (String.length s <= n)%nat ->
  exists x, universal_newlines (s ++ String LF l) = x ++ String LF l.
Proof.
  intros Hl. induction n as [|n IH]; intros s Hn.
  - destruct s; [|simpl in Hn; lia].
    exists EmptyString. simpl. now rewrite universal_newlines_plain.
  - destruct s as [|c s].
    { exists EmptyString. simpl. now rewrite universal_newlines_plain. }
    simpl in Hn. cbn [append universal_newlines].
    destruct (Ascii.eqb c CR).
    + destruct s as [|c2 s]; cbn [append].
      * exists EmptyString. change (Ascii.eqb LF LF) with true. cbv iota.
        now rewrite universal_newlines_plain.
      * destruct (Ascii.eqb c2 LF).
        -- destruct (IH s) as [x Hx]; [simpl in Hn; lia|].
           exists (String LF x). rewrite Hx. reflexivity.
        -- destruct (IH (String c2 s)) as [x Hx]; [simpl in *; lia|].
           exists (String LF x). cbn [append] in Hx. rewrite Hx. reflexivity.
    + destruct (IH s) as [x Hx]; [lia|].
      exists (String c x). rewrite Hx. reflexivity.
Qed.

Lemma universal_newlines_last_line s l :
  all_chars not_newline l = true ->
  exists x, universal_newlines (s ++ String LF l) = x ++ String LF l.
Proof.
  intros Hl. now apply (universal_newlines_last_line_n l Hl (String.length s) s).
Qed.

Lemma append_assoc (a b c : string) : (a ++ b) ++ c = a ++ (b ++ c).
Proof. induction a as [|x a IH]; simpl; [reflexivity | now rewrite IH]. Qed.

Lemma append_nil_r (a : string) : a ++ EmptyString = a.
Proof. induction a as [|x a IH]; simpl; [reflexivity | now rewrite IH]. Qed.

Lemma splitlines_plain l : forall cur,
  all_chars not_newline l = true -> cur ++ l <> EmptyString ->
  splitlines l cur = [cur ++ l].
Proof.
  induction l as [|c l IH]; intros cur Hl Hne; simpl.
  - rewrite append_nil_r in *. destruct cur; congruence.
  - simpl in Hl. apply andb_true_iff in Hl as [Hc Hl].
    unfold not_newline in Hc. apply andb_true_iff in Hc as [Hc _].
    apply negb_true_iff in Hc. rewrite Hc.
    rewrite IH; auto.
    + now rewrite append_assoc.
    + rewrite append_assoc. simpl. destruct cur; simpl; congruence.
Qed.

Lemma splitlines_last_line l : forall x cur,
  all_chars not_newline l = true -> l <> EmptyString ->
  exists hd tl, splitlines (x ++ String LF l) cur = hd :: tl ++ [l].
Proof.
  intros x cur Hl Hne. revert cur.
  induction x as [|c x IH]; intros cur; cbn [append splitlines].
  - change (Ascii.eqb LF LF) with true. cbv iota.
    exists (cur ++ nl), []. f_equal. now apply (splitlines_plain l EmptyString).
  - destruct (Ascii.eqb c LF).
    + destruct (IH EmptyString) as (hd & tl & E).
      exists (cur ++ nl), (hd :: tl). now rewrite E.
    + apply IH.
Qed.

(** The last line of a text that ends with a line feed followed by a
    non-empty text [l] without line breaks is [l], and it is not the only
    line. *)
Lemma readlines_last_line s l :
  all_chars not_newline l = true -> l <> EmptyString ->
  exists hd tl, readlines (s ++ String LF l) = hd :: tl ++ [l].
Proof.
  intros Hl Hne. unfold readlines.
  destruct (universal_newlines_last_line s l Hl) as [x ->].
  now apply splitlines_last_line.
Qed.

End PyFacts.

(** ** The monad and the trace *)

Section TraceFacts.
Context {RT : PyRuntime}.

Lemma rows_of_app (t1 t2 : list event) :
  rows_of (t1 ++ t2) = (rows_of t1 ++ rows_of t2)%list.
Proof.
  induction t1 as [|e t1 IH]; simpl; [reflexivity|].
  destruct e; simpl; now rewrite IH.
Qed.

Lemma sleeps_of_app (t1 t2 : list event) :
  sleeps_of (t1 ++ t2) = (sleeps_of t1 ++ sleeps_of t2)%list.
Proof.
  induction t1 as [|e t1 IH]; simpl; [reflexivity|].
  destruct e; simpl; now rewrite IH.
Qed.

Lemma render_rows_app (r1 r2 : list row) :
  render_rows (r1 ++ r2) = render_rows r1 ++ render_rows r2.
Proof.
  induction r1 as [|r r1 IH]; simpl; [reflexivity|].
  rewrite IH. now rewrite PyFacts.append_assoc.
Qed.

Lemma advanced_0 c : advanced c 0 EmptyString = c.
Proof.
  destruct c; unfold advanced; simpl.
  now rewrite Z.add_0_r, PyFacts.append_nil_r.
Qed.

Lemma advanced_advanced c k1 t1 k2 t2 :
  advanced (advanced c k1 t1) k2 t2 = advanced c (k1 + k2) (t1 ++ t2).
Proof.
  unfold advanced; simpl.
  now rewrite Z.add_assoc, PyFacts.append_assoc.
Qed.

Lemma increasing_from_weaken ids : forall lo lo',
  lo' <= lo -> increasing_from lo ids -> increasing_from lo' ids.
Proof.
  destruct ids as [|x tl]; simpl; [auto|].
  intros lo lo' Hle [Hx Htl]. split; [lia | exact Htl].
Qed.

Lemma increasing_from_app l1 : forall lo hi l2,
  increasing_from lo l1 -> Forall (fun id => id < hi) l1 ->
  increasing_from hi l2 -> lo <= hi ->
  increasing_from lo (l1 ++ l2).
Proof.
  induction l1 as [|x l1 IH]; intros lo hi l2 H1 Hb H2 Hle; simpl.
  - now apply (increasing_from_weaken l2 hi lo).
  - destruct H1 as [Hx H1]. inversion Hb; subst.
    split; [exact Hx|]. apply (IH (x + 1) hi); auto. lia.
Qed.

Lemma increasing_from_lower ids : forall lo,
  increasing_from lo ids -> Forall (fun id => lo <= id) ids.
Proof.
  induction ids as [|x tl IH]; intros lo H; constructor.
  - now destruct H.
  - destruct H as [Hx H]. apply IH in H.
    eapply Forall_impl; [|exact H]. simpl. intros; lia.
Qed.

Lemma increasing_from_sorted ids : forall lo,
  increasing_from lo ids -> StronglySorted Z.lt ids.
Proof.
  induction ids as [|x tl IH]; intros lo H; constructor.
  - destruct H as [_ H]. now apply (IH (x + 1)).
  - destruct H as [_ H]. apply increasing_from_lower in H.
    eapply Forall_impl; [|exact H]. simpl. intros; lia.
Qed.

Lemma sorted_app (l1 l2 : list Z) (mid : Z) :
  StronglySorted Z.lt l1 -> Forall (fun id => id < mid) l1 ->
  StronglySorted Z.lt l2 -> Forall (fun id => mid <= id) l2 ->
  StronglySorted Z.lt (l1 ++ l2).
Proof.
  induction l1 as [|x l1 IH]; intros S1 B1 S2 B2; simpl; [exact S2|].
  inversion S1; subst. inversion B1; subst. constructor; [now apply IH|].
  apply Forall_app. split; [assumption|].
  eapply Forall_impl; [|exact B2]. simpl. intros; lia.
Qed.

Lemma sorted_nodup (l : list Z) : StronglySorted Z.lt l -> NoDup l.
Proof.
  induction 1 as [|x l S IH B]; constructor; [|exact IH].
  intros Hin. rewrite Forall_forall in B. specialize (B x Hin). lia.
Qed.

Lemma requests_of_app (t1 t2 : list event) :
  requests_of (t1 ++ t2) = (requests_of t1 + requests_of t2)%nat.
Proof. unfold requests_of. now rewrite filter_app, length_app. Qed.

Lemma requests_of_cons_get u t (tr : list event) :
  requests_of (EvGet u t :: tr) = S (requests_of tr).
Proof. reflexivity. Qed.

Lemma waits_after_length (tr : list event) : forall cur,
  List.length (waits_after tr cur) = requests_of tr.
Proof.
  induction tr as [|e tr IH]; intros cur; [reflexivity|].
  destruct e; simpl; rewrite IH; reflexivity.
Qed.

End TraceFacts.

(** ** AsyncConnector: one attempt *)

Module AsyncFacts.
Import AsyncConnector.

Section WithRuntime.
Context {RT : PyRuntime}.
Variables (url project_name : string).

Lemma except_clauses_eta e : except_clauses e = (fst (except_clauses e), false).
Proof. destruct e; reflexivity. Qed.

Ltac run_attempt :=
  unfold attempt, try_block, finally_clause, rate_limit, sleep, bind, read, emit,
    next_id, log_write, ret; simpl.

(** [session.get] raises. *)
Lemma attempt_get_raises a c e :
  http a = GetRaises e ->
  let fr := failure_row (call_id c) url project_name a (fst (except_clauses e)) false in
  attempt url project_name a c =
    (Next, advanced c 1 (render_rows [fr]),
     [EvGet url (timeout c); EvWrite fr; EvSleep (timeout c)]).
Proof.
  intros H fr. run_attempt. rewrite H. simpl.
  rewrite (except_clauses_eta e). simpl.
  unfold advanced, fr, failure_row. simpl.
  rewrite PyFacts.append_nil_r. reflexivity.
Qed.

(** The response has no Content-Type header: the membership test raises
    TypeError. *)
Lemma attempt_no_content_type a c resp :
  http a = Responds resp -> content_type resp = None ->
  let fr := failure_row (call_id c + 1) url project_name a (format_exc TypeError) false in
  attempt url project_name a c =
    (Next, advanced c 2 (render_rows [fr]),
     [EvGet url (timeout c); EvWrite fr; EvSleep (timeout c)]).
Proof.
  intros H Hct fr. run_attempt. rewrite H. simpl. rewrite Hct. simpl.
  unfold advanced, fr, failure_row. simpl.
  rewrite PyFacts.append_nil_r, <- Z.add_assoc. reflexivity.
Qed.

(** Reading the body raises. *)
Lemma attempt_decode_raises a c resp ct e :
  http a = Responds resp -> content_type resp = Some ct ->
  decode resp ct = inl e ->
  let fr := failure_row (call_id c + 1) url project_name a (fst (except_clauses e)) false in
  attempt url project_name a c =
    (Next, advanced c 2 (render_rows [fr]),
     [EvGet url (timeout c); EvWrite fr; EvSleep (timeout c)]).
Proof.
  intros H Hct Hd fr. run_attempt. rewrite H. simpl. rewrite Hct, Hd. simpl.
  rewrite (except_clauses_eta e). simpl.
  unfold advanced, fr, failure_row. simpl.
  rewrite PyFacts.append_nil_r, <- Z.add_assoc. reflexivity.
Qed.

(** A decoded response with a status of 500 or more: the row of the
    response is built and dropped, and the finally clause writes a row with
    the values [success = True] and [error = ''] of the try block. *)
Lemma attempt_server_error a c resp ct r size :
  http a = Responds resp -> content_type resp = Some ct ->
  decode resp ct = inr (r, size) -> 500 <= status resp ->
  let fr := failure_row (call_id c + 1) url project_name a EmptyString true in
  attempt url project_name a c =
    (Next, advanced c 2 (render_rows [fr]),
     [EvGet url (timeout c); EvSleep (timeout c); EvWrite fr; EvSleep (timeout c)]).
Proof.
  intros H Hct Hd Hs fr. run_attempt. rewrite H. simpl. rewrite Hct, Hd. simpl.
  apply Z.leb_le in Hs. rewrite Hs. simpl.
  unfold advanced, fr, failure_row. simpl.
  rewrite PyFacts.append_nil_r, <- Z.add_assoc. reflexivity.
Qed.

(** A decoded response with a status below 500: the row of the response is
    written, [r] is returned, and on the way out the finally clause writes
    a second row and sleeps. *)
Lemma attempt_success a c resp ct r size :
  http a = Responds resp -> content_type resp = Some ct ->
  decode resp ct = inr (r, size) -> status resp < 500 ->
  let rr := response_row (call_id c) url project_name a resp size in
  let fr := failure_row (call_id c + 1) url project_name a EmptyString true in
  attempt url project_name a c =
    (Return r, advanced c 2 (render_rows [rr; fr]),
     [EvGet url (timeout c); EvWrite rr; EvWrite fr; EvSleep (timeout c)]).
Proof.
  intros H Hct Hd Hs rr fr. run_attempt. rewrite H. simpl. rewrite Hct, Hd. simpl.
  apply Z.leb_gt in Hs. rewrite Hs. simpl.
  unfold advanced, rr, fr, failure_row, response_row. simpl.
  rewrite PyFacts.append_nil_r, <- Z.add_assoc, !PyFacts.append_assoc. reflexivity.
Qed.

(** What every attempt does, whatever it meets. *)
Ltac shape_facts :=
  cbn zeta; split; [reflexivity|]; simpl;
  repeat (split; [first [ discriminate | lia | reflexivity | now auto
                        | (repeat constructor; simpl; lia) ]|]).

Lemma attempt_shape a c :
  exists x body k,
    attempt url project_name a c =
      (x, advanced c k (render_rows (rows_of body)), EvGet url (timeout c) :: body) /\
    (k = 1 \/ k = 2) /\
    (forall e, x <> Raise e) /\
    rows_of body <> [] /\
    increasing_from (call_id c) (call_ids (rows_of body)) /\
    Forall (fun id => id < call_id c + k) (call_ids (rows_of body)) /\
    requests_of body = O /\
    (x = Next -> List.length (rows_of body) = 1%nat) /\
    Forall (fun d => d = timeout c) (sleeps_of body) /\
    exists w, flat_wait (timeout c) w /\
      forall rest, waits_after (body ++ rest) [] = waits_after rest w.
Proof.
  destruct (http a) as [e|resp] eqn:H.
  { exists Next, [EvWrite (failure_row (call_id c) url project_name a
                      (fst (except_clauses e)) false); EvSleep (timeout c)], 1.
    rewrite (attempt_get_raises a c e H). shape_facts.
    exists [timeout c]. split; [now left | reflexivity]. }
  destruct (content_type resp) as [ct|] eqn:Hct.
  2:{ exists Next, [EvWrite (failure_row (call_id c + 1) url project_name a
                        (format_exc TypeError) false); EvSleep (timeout c)], 2.
      rewrite (attempt_no_content_type a c resp H Hct). shape_facts.
      exists [timeout c]. split; [now left | reflexivity]. }
  destruct (decode resp ct) as [e|[r size]] eqn:Hd.
  { exists Next, [EvWrite (failure_row (call_id c + 1) url project_name a
                      (fst (except_clauses e)) false); EvSleep (timeout c)], 2.
    rewrite (attempt_decode_raises a c resp ct e H Hct Hd). shape_facts.
    exists [timeout c]. split; [now left | reflexivity]. }
  destruct (Z_lt_le_dec (status resp) 500) as [Hs|Hs].
  - exists (Return r),
      [EvWrite (response_row (call_id c) url project_name a resp size);
       EvWrite (failure_row (call_id c + 1) url project_name a EmptyString true);
       EvSleep (timeout c)], 2.
    rewrite (attempt_success a c resp ct r size H Hct Hd Hs). shape_facts.
    exists [timeout c]. split; [now left | reflexivity].
  - exists Next,
      [EvSleep (timeout c);
       EvWrite (failure_row (call_id c + 1) url project_name a EmptyString true);
       EvSleep (timeout c)], 2.
    rewrite (attempt_server_error a c resp ct r size H Hct Hd Hs). shape_facts.
    exists [timeout c; timeout c]. split; [now right | reflexivity].
Qed.

(** *** The loop *)

Variable env : nat -> attempt_env.

Lemma attempts_shape todo : forall i c,
  exists out tr k,
    attempts todo i url project_name env c =
      (out, advanced c k (render_rows (rows_of tr)), tr) /\
    0 <= k /\
    (forall e, out <> Propagated e) /\
    (todo <> O -> rows_of tr <> []) /\
    increasing_from (call_id c) (call_ids (rows_of tr)) /\
    Forall (fun id => id < call_id c + k) (call_ids (rows_of tr)) /\
    (out = NoValue ->
       requests_of tr = todo /\ List.length (rows_of tr) = todo) /\
    Forall (fun d => d = timeout c) (sleeps_of tr).
Proof.
  induction todo as [|todo IH]; intros i c.
  - exists NoValue, [], 0. simpl. unfold ret. rewrite advanced_0.
    repeat split; auto; try discriminate; try lia.
  - destruct (attempt_shape (env i) c)
      as (x & body & k & E & Hk & Hx & Hne & Hinc & Hlt & Hreq & Hone & Hsl & _).
    cbn [attempts]. unfold bind at 1. rewrite E.
    destruct x as [|r|e]; [|clear IH|now destruct (Hx e)].
    + destruct (IH (S i) (advanced c k (render_rows (rows_of body))))
        as (out & tr & k' & E' & Hk' & Hout & _ & Hinc' & Hlt' & Hex & Hsl').
      rewrite E'. exists out, (EvGet url (timeout c) :: body ++ tr)%list, (k + k').
      rewrite advanced_advanced. cbn [rows_of]. rewrite rows_of_app, render_rows_app.
      split; [reflexivity|]. simpl in Hinc', Hlt'.
      split; [lia|]. split; [exact Hout|].
      split; [intros _ Hnil; apply app_eq_nil in Hnil as [Hnil _]; now apply Hne|].
      unfold call_ids in *. rewrite map_app. split; [|split; [|split]].
      * apply (increasing_from_app _ (call_id c) (call_id c + k)); auto. lia.
      * apply Forall_app. split.
        -- eapply Forall_impl; [|exact Hlt]. simpl. intros; lia.
        -- eapply Forall_impl; [|exact Hlt']. simpl. intros; lia.
      * intros Hnv. destruct (Hex Hnv) as [Hr Hl].
        rewrite requests_of_cons_get, requests_of_app, Hreq, Hr.
        rewrite length_app, (Hone eq_refl), Hl. split; reflexivity.
      * cbn [sleeps_of]. rewrite sleeps_of_app. apply Forall_app. now split.
    + exists (Value r), (EvGet url (timeout c) :: body)%list, k.
      unfold ret. rewrite app_nil_r. cbn [rows_of].
      split; [reflexivity|].
      split; [lia|]. split; [discriminate|].
      split; [intros _; exact Hne|]. repeat split; try assumption; discriminate.
Qed.

Lemma attempts_paced todo : forall i c,
  let tr := snd (attempts todo i url project_name env c) in
  tr = [] \/
  exists body, tr = EvGet url (timeout c) :: body /\
    Forall (flat_wait (timeout c)) (waits_after body []).
Proof.
  induction todo as [|todo IH]; intros i c; [now left|]. right.
  destruct (attempt_shape (env i) c)
    as (x & body & k & E & _ & Hx & _ & _ & _ & _ & _ & _ & w & Hw & Hwaits).
  cbn [attempts]. unfold bind at 1. rewrite E.
  destruct x as [|r|e]; [| |now destruct (Hx e)].
  - specialize (IH (S i) (advanced c k (render_rows (rows_of body)))).
    destruct (attempts todo (S i) url project_name env
                (advanced c k (render_rows (rows_of body)))) as [[out c'] tr'].
    cbn [snd] in *. exists (body ++ tr')%list. split; [reflexivity|].
    rewrite Hwaits. destruct IH as [-> | (body' & -> & Hb)]; [constructor|].
    simpl. constructor; [exact Hw | exact Hb].
  - unfold ret. cbn [snd]. exists body. rewrite app_nil_r. split; [reflexivity|].
    rewrite <- (app_nil_r body), Hwaits. constructor.
Qed.

Lemma get_unfold c :
  get url project_name env c =
  attempts (Z.to_nat (n_tries c)) 0 url project_name env c.
Proof. reflexivity. Qed.

(** Any response with a status of 500 or more leads to the next
    iteration, with one row written and two call ids taken. *)
Lemma attempt_5xx a c :
  server_error a ->
  exists fr body,
    attempt url project_name a c =
      (Next, advanced c 2 (render_rows [fr]), EvGet url (timeout c) :: body) /\
    rows_of body = [fr] /\ row_response_code fr = None.
Proof.
  intros (resp & H & Hs).
  destruct (content_type resp) as [ct|] eqn:Hct.
  2:{ rewrite (attempt_no_content_type a c resp H Hct). cbn zeta.
      eexists _, _. split; [reflexivity|]. split; reflexivity. }
  destruct (decode resp ct) as [e|[r size]] eqn:Hd.
  - rewrite (attempt_decode_raises a c resp ct e H Hct Hd). cbn zeta.
    eexists _, _. split; [reflexivity|]. split; reflexivity.
  - rewrite (attempt_server_error a c resp ct r size H Hct Hd Hs). cbn zeta.
    eexists _, _. split; [reflexivity|]. split; reflexivity.
Qed.

Lemma attempts_retry_then_success resp ct r size k : forall todo i c,
  (k < todo)%nat ->
  (forall j, (j < k)%nat -> server_error (env (i + j))) ->
  http (env (i + k)) = Responds resp -> content_type resp = Some ct ->
  decode resp ct = inr (r, size) -> status resp < 500 ->
  exists c' tr earlier,
    attempts todo i url project_name env c = (Value r, c', tr) /\
    call_id c' = call_id c + 2 * (Z.of_nat k + 1) /\
    rows_of tr =
      (earlier ++
       [response_row (call_id c + 2 * Z.of_nat k) url project_name (env (i + k)) resp size;
        failure_row (call_id c + 2 * Z.of_nat k + 1) url project_name (env (i + k))
          EmptyString true])%list /\
    List.length earlier = k /\
    Forall (fun row => row_response_code row = None) earlier.
Proof.
  induction k as [|k IH]; intros todo i c Hk Hfail H Hct Hd Hs.
  - destruct todo as [|todo]; [lia|].
    rewrite Nat.add_0_r in *.
    cbn [attempts]. unfold bind at 1.
    rewrite (attempt_success (env i) c resp ct r size H Hct Hd Hs). cbn zeta.
    unfold ret. cbn [app]. eexists _, _, []. split; [reflexivity|].
    rewrite Z.mul_0_r, Z.add_0_r. cbn [rows_of app advanced call_id].
    repeat split. constructor.
  - destruct todo as [|todo]; [lia|].
    destruct (attempt_5xx (env i) c) as (fr & body & E & Hrows & Hcode).
    { rewrite <- (Nat.add_0_r i). apply Hfail. lia. }
    cbn [attempts]. unfold bind at 1. rewrite E.
    destruct (IH todo (S i) (advanced c 2 (render_rows [fr])))
      as (c' & tr & earlier & E' & Hid & Hrows' & Hlen & Hnone).
    + lia.
    + intros j Hj. replace (S i + j)%nat with (i + S j)%nat by lia. apply Hfail. lia.
    + replace (S i + k)%nat with (i + S k)%nat by lia. exact H.
    + exact Hct.
    + exact Hd.
    + exact Hs.
    + rewrite E'. replace (S i + k)%nat with (i + S k)%nat in Hrows' by lia.
      exists c', (EvGet url (timeout c) :: body ++ tr)%list, (fr :: earlier).
      cbn [rows_of]. rewrite rows_of_app, Hrows, Hrows'.
      cbn [advanced call_id] in *.
      split; [reflexivity|]. split; [lia|]. split; [|split].
      * cbn [app]. do 3 f_equal.
        -- f_equal. lia.
        -- f_equal. f_equal. lia.
      * simpl. now rewrite Hlen.
      * constructor; assumption.
Qed.

Lemma attempts_all_server_errors todo : forall i c,
  (forall j, (j < todo)%nat -> decoded_server_error (env (i + j))) ->
  exists c' tr,
    attempts todo i url project_name env c = (NoValue, c', tr) /\
    call_id c' = call_id c + 2 * Z.of_nat todo /\
    List.length (rows_of tr) = todo /\
    Forall (fun row => row_success row = true /\ row_response_code row = None)
      (rows_of tr).
Proof.
  induction todo as [|todo IH]; intros i c Hall.
  - exists c, []. simpl. unfold ret. repeat split; [lia | constructor].
  - destruct (Hall O) as (resp & ct & r & size & H & Hct & Hd & Hs); [lia|].
    rewrite Nat.add_0_r in H.
    cbn [attempts]. unfold bind at 1.
    rewrite (attempt_server_error (env i) c resp ct r size H Hct Hd Hs). cbn zeta.
    destruct (IH (S i) (advanced c 2
                (render_rows [failure_row (call_id c + 1) url project_name (env i)
                                EmptyString true]))) as (c' & tr & E & Hid & Hlen & Hrows).
    { intros j Hj. replace (S i + j)%nat with (i + S j)%nat by lia. apply Hall. lia. }
    rewrite E. eexists _, _. split; [reflexivity|].
    cbn [advanced call_id] in Hid. split; [lia|].
    cbn [app rows_of]. split.
    + simpl. now rewrite Hlen.
    + constructor; [split; reflexivity | exact Hrows].
Qed.

(** No exception leaves [get]: every exception of an attempt is caught by
    one of the except clauses. *)
Lemma get_never_propagates c e :
  fst (fst (get url project_name env c)) <> Propagated e.
Proof.
  rewrite get_unfold.
  destruct (attempts_shape (Z.to_nat (n_tries c)) 0 c)
    as (out & tr & k & E & _ & Hout & _).
  rewrite E. apply Hout.
Qed.

End WithRuntime.
End AsyncFacts.

(** ** Connector: one attempt and the loop *)

Module ConnectorFacts.
Import Connector.

Section WithRuntime.
Context {RT : PyRuntime}.
Variables (url project_name : string).

Ltac run_connector_attempt :=
  unfold attempt, try_block, except_clause, lookup_rate_limit, bind, read, emit,
    next_id, log_write, ret; simpl.

(** A decoded response with a status below 500: one row, and the result
    is returned. *)
Lemma connector_attempt_success n a c resp r :
  http a = Responds resp -> body_json resp = inr r -> status resp < 500 ->
  let rr := response_row (call_id c) url project_name a resp (Py.len (json_dumps r)) in
  attempt n url project_name a c =
    (Return (r, status resp, call_id c), advanced c 1 (render_rows [rr]),
     [EvGet url (timeout c); EvWrite rr]).
Proof.
  intros H Hj Hs rr. run_connector_attempt. rewrite H. simpl. rewrite Hj. simpl.
  apply Z.leb_gt in Hs. rewrite Hs. simpl.
  unfold advanced, rr, response_row. simpl.
  rewrite PyFacts.append_nil_r. reflexivity.
Qed.

(** [session.get] raises: the except clause writes its row, and then the
    name [rate_limit] raises NameError inside the clause. *)
Lemma connector_attempt_get_raises n a c e :
  http a = GetRaises e ->
  let fr := failure_row (call_id c) url project_name a (format_exc e) false in
  attempt n url project_name a c =
    (Raise NameError, advanced c 1 (render_rows [fr]),
     [EvGet url (timeout c); EvWrite fr]).
Proof.
  intros H fr. run_connector_attempt. rewrite H. simpl.
  unfold advanced, fr, failure_row. simpl.
  rewrite PyFacts.append_nil_r. reflexivity.
Qed.

(** [response.json()] raises. *)
Lemma connector_attempt_json_raises n a c resp e :
  http a = Responds resp -> body_json resp = inl e ->
  let fr := failure_row (call_id c) url project_name a (format_exc e) false in
  attempt n url project_name a c =
    (Raise NameError, advanced c 1 (render_rows [fr]),
     [EvGet url (timeout c); EvWrite fr]).
Proof.
  intros H Hj fr. run_connector_attempt. rewrite H. simpl. rewrite Hj. simpl.
  unfold advanced, fr, failure_row. simpl.
  rewrite PyFacts.append_nil_r. reflexivity.
Qed.

(** A status of 500 or more: the name [rate_limit] raises NameError in the
    try block, the except clause logs it, and the name raises again. *)
Lemma connector_attempt_server_error n a c resp r :
  http a = Responds resp -> body_json resp = inr r -> 500 <= status resp ->
  let fr := failure_row (call_id c + 1) url project_name a (format_exc NameError) false in
  attempt n url project_name a c =
    (Raise NameError, advanced c 2 (render_rows [fr]),
     [EvGet url (timeout c); EvWrite fr]).
Proof.
  intros H Hj Hs fr. run_connector_attempt. rewrite H. simpl. rewrite Hj. simpl.
  apply Z.leb_le in Hs. rewrite Hs. simpl.
  unfold advanced, fr, failure_row. simpl.
  rewrite PyFacts.append_nil_r, <- Z.add_assoc. reflexivity.
Qed.

(** Every attempt ends the call: no attempt leads to a next one. *)
Lemma connector_attempt_shape n a c :
  exists x fr k,
    attempt n url project_name a c =
      (x, advanced c k (render_rows [fr]), [EvGet url (timeout c); EvWrite fr]) /\
    x <> Next /\
    (connector_failure a = true ->
       x = Raise NameError /\ row_success fr = false /\
       row_response_code fr = None /\ row_response_size fr = 0) /\
    call_id c <= row_call_id fr < call_id c + k.
Proof.
  unfold connector_failure.
  destruct (http a) as [e|resp] eqn:H.
  { eexists _, _, 1. rewrite (connector_attempt_get_raises n a c e H). cbn zeta.
    split; [reflexivity|]. simpl. repeat split; try discriminate; lia. }
  destruct (body_json resp) as [e|r] eqn:Hj.
  { eexists _, _, 1. rewrite (connector_attempt_json_raises n a c resp e H Hj). cbn zeta.
    split; [reflexivity|]. simpl. repeat split; try discriminate; lia. }
  destruct (Z_lt_le_dec (status resp) 500) as [Hs|Hs].
  - eexists _, _, 1. rewrite (connector_attempt_success n a c resp r H Hj Hs). cbn zeta.
    split; [reflexivity|]. simpl. repeat split; try discriminate; try lia.
    all: intros Hf; apply Z.leb_le in Hf; lia.
  - eexists _, _, 2. rewrite (connector_attempt_server_error n a c resp r H Hj Hs). cbn zeta.
    split; [reflexivity|]. simpl. repeat split; try discriminate; lia.
Qed.

Variable env : nat -> attempt_env.

(** The loop makes one attempt at most. *)
Lemma connector_attempts_shape todo i c :
  exists out tr k,
    attempts todo i url project_name env c =
      (out, advanced c k (render_rows (rows_of tr)), tr) /\
    0 <= k /\
    (requests_of tr <= 1)%nat /\
    waits_between tr = [] /\
    (todo <> O -> rows_of tr <> []) /\
    increasing_from (call_id c) (call_ids (rows_of tr)) /\
    Forall (fun id => id < call_id c + k) (call_ids (rows_of tr)).
Proof.
  destruct todo as [|todo].
  - exists NoValue, [], 0. simpl. unfold ret. rewrite advanced_0.
    unfold requests_of. simpl. repeat split; auto; try lia.
  - destruct (connector_attempt_shape (Z.of_nat i) (env i) c)
      as (x & fr & k & E & Hx & _ & Hid).
    cbn [attempts]. unfold bind at 1. rewrite E. unfold ret.
    assert (Hfacts :
      0 <= k /\ (requests_of [EvGet url (timeout c); EvWrite fr] <= 1)%nat /\
      waits_between [EvGet url (timeout c); EvWrite fr] = [] /\
      (S todo <> O -> rows_of [EvGet url (timeout c); EvWrite fr] <> []) /\
      increasing_from (call_id c)
        (call_ids (rows_of [EvGet url (timeout c); EvWrite fr])) /\
      Forall (fun id => id < call_id c + k)
        (call_ids (rows_of [EvGet url (timeout c); EvWrite fr]))).
    { unfold requests_of. simpl.
      repeat split; auto; try lia; try discriminate. repeat constructor. lia. }
    destruct x as [|v|e]; [congruence| |].
    + exists (Value v), [EvGet url (timeout c); EvWrite fr], k.
      split; [reflexivity | exact Hfacts].
    + exists (Propagated e), [EvGet url (timeout c); EvWrite fr], k.
      split; [reflexivity | exact Hfacts].
Qed.

(** When the first attempt fails, NameError reaches the caller of [get]. *)
Lemma get_failure_propagates c :
  0 < n_tries c -> connector_failure (env 0) = true ->
  exists c' fr,
    get url project_name env c =
      (Propagated NameError, c', [EvGet url (timeout c); EvWrite fr]) /\
    row_success fr = false.
Proof.
  intros Hn Hf. unfold get.
  destruct (Z.to_nat (n_tries c)) as [|todo] eqn:Ht; [lia|].
  destruct (connector_attempt_shape 0 (env 0%nat) c) as (x & fr & k & E & _ & Hfail & _).
  destruct (Hfail Hf) as (-> & Hsucc & _).
  cbn [attempts]. unfold bind at 1. cbn [Z.of_nat]. rewrite E. unfold ret.
  eexists _, _. split; [reflexivity | exact Hsucc].
Qed.

End WithRuntime.
End ConnectorFacts.

(** ** The log invariant *)

Section LogInvariant.
Context {RT : PyRuntime}.

Lemma row_line_first_field (r : row) :
  exists rest, row_line r = Py.str_int (row_call_id r) ++ String ";" rest.
Proof. eexists. unfold row_line, row_fields. cbn [Py.join]. reflexivity. Qed.

(** Reading back a log whose last record takes one line gives the call id
    after that of the record. *)
Lemma recover_after_row (s : string) (r : row) :
  single_line r = true ->
  recover_call_id (Py.readlines (s ++ Py.nl ++ row_line r)) = row_call_id r + 1.
Proof.
  intros Hline. unfold single_line in Hline.
  destruct (row_line_first_field r) as [rest Hrow].
  assert (Hne : row_line r <> EmptyString).
  { rewrite Hrow. destruct (Py.str_int (row_call_id r)); discriminate. }
  change (Py.nl ++ row_line r) with (String Py.LF (row_line r)).
  destruct (PyFacts.readlines_last_line s (row_line r) Hline Hne) as (hd & tl & ->).
  unfold recover_call_id.
  replace (List.length (hd :: tl ++ [row_line r]) <=? 1)%nat with false
    by (symmetry; apply Nat.leb_gt; simpl; rewrite length_app; simpl; lia).
  change (hd :: tl ++ [row_line r])%list with ((hd :: tl) ++ [row_line r])%list.
  rewrite last_last, Hrow.
  rewrite PyFacts.first_field_app by apply PyFacts.str_int_no_semicolon.
  now rewrite PyFacts.int_str_int.
Qed.

Lemma sorted_snoc_bound (ids : list Z) (x : Z) :
  StronglySorted Z.lt (ids ++ [x]) -> Forall (fun id => id < x + 1) (ids ++ [x]).
Proof.
  induction ids as [|y ids IH]; simpl; intros S.
  - repeat constructor. lia.
  - inversion S as [|? ? S' B]; subst. constructor; [|now apply IH].
    rewrite Forall_forall in B. specialize (B x). 
    assert (y < x) by (apply B; apply in_or_app; right; now left). lia.
Qed.

Lemma snoc_case {A : Type} (l : list A) :
  l = [] \/ exists l' a, l = (l' ++ [a])%list.
Proof.
  induction l as [|a l' _] using rev_ind; [now left | right; now exists l', a].
Qed.

Variable header : list string.

Lemma log_inv_created (c : connector) :
  log c = Py.join ";" header ++ Py.nl -> log_inv header [] c.
Proof.
  intros H. split.
  - rewrite H. unfold log_text. cbn [render_rows].
    now rewrite (PyFacts.append_nil_r Py.nl).
  - constructor.
  - constructor.
Qed.

Lemma log_inv_advanced (rs new : list row) (c : connector) (k : Z) :
  log_inv header rs c -> 0 <= k ->
  increasing_from (call_id c) (call_ids new) ->
  Forall (fun id => id < call_id c + k) (call_ids new) ->
  log_inv header (rs ++ new) (advanced c k (render_rows new)).
Proof.
  intros [Htext Hsorted Hnext] Hk Hinc Hlt. split.
  - cbn [advanced log]. rewrite Htext. unfold log_text.
    now rewrite render_rows_app, !PyFacts.append_assoc.
  - unfold call_ids in *. rewrite map_app.
    apply (sorted_app _ _ (call_id c)); auto.
    + now apply (increasing_from_sorted _ (call_id c)).
    + now apply increasing_from_lower.
  - unfold call_ids in *. rewrite map_app. cbn [advanced call_id].
    apply Forall_app. split; [|exact Hlt].
    eapply Forall_impl; [|exact Hnext]. simpl. intros; lia.
Qed.

(** Opening the log again without overwriting keeps the invariant, when
    the last record of the log takes one line. *)
Lemma log_inv_reopened (rs : list row) (c : connector) (n tmo : Z) :
  log_inv header rs c ->
  (forall rs' r, rs = (rs' ++ [r])%list -> single_line r = true) ->
  log_inv header rs (init_with header (Some (log c)) false n tmo) /\
  (forall rs' r, rs = (rs' ++ [r])%list ->
     call_id (init_with header (Some (log c)) false n tmo) = row_call_id r + 1).
Proof.
  intros [Htext Hsorted Hnext] Hlast.
  assert (Hid : forall rs' r, rs = (rs' ++ [r])%list ->
            call_id (init_with header (Some (log c)) false n tmo) = row_call_id r + 1).
  { intros rs' r ->. cbn [init_with open_log call_id]. rewrite Htext.
    unfold log_text. rewrite render_rows_app. cbn [render_rows].
    rewrite PyFacts.append_nil_r, <- !PyFacts.append_assoc.
    rewrite (PyFacts.append_assoc _ Py.nl (row_line r)).
    apply recover_after_row. now apply (Hlast rs'). }
  split; [|exact Hid]. split.
  - exact Htext.
  - exact Hsorted.
  - destruct (snoc_case rs) as [-> | (rs' & r & ->)]; [constructor|].
    rewrite (Hid rs' r eq_refl). unfold call_ids in *. rewrite map_app in *.
    now apply sorted_snoc_bound.
Qed.

Lemma log_inv_unique (rs : list row) (c : connector) :
  log_inv header rs c -> NoDup (call_ids rs).
Proof. intros [_ Hsorted _]. now apply sorted_nodup. Qed.

End LogInvariant.

(** ** Lines that end a text *)

Module TailFacts.
Import Py.

Lemma universal_newlines_no_cr (t : string) :
  no_cr t = true -> universal_newlines t = t.
Proof.
  unfold no_cr. induction t as [|c t IH]; simpl; [reflexivity|].
  intros H. apply andb_true_iff in H as [Hc Ht].
  apply negb_true_iff in Hc. rewrite Hc. now rewrite (IH Ht).
Qed.

Lemma universal_newlines_tail_n (t : string) :
  no_cr t = true ->
  forall n s, (String.length s <= n)%nat ->
  exists x, universal_newlines (s ++ String LF t) = x ++ String LF t.
Proof.
  intros Ht. induction n as [|n IH]; intros s Hn.
  - destruct s; [|simpl in Hn; lia].
    exists EmptyString. simpl. now rewrite universal_newlines_no_cr.
  - destruct s as [|c s].
    { exists EmptyString. simpl. now rewrite universal_newlines_no_cr. }
    simpl in Hn. cbn [append universal_newlines].
    destruct (Ascii.eqb c CR).
    + destruct s as [|c2 s]; cbn [append].
      * exists EmptyString. change (Ascii.eqb LF LF) with true. cbv iota.
        now rewrite universal_newlines_no_cr.
      * destruct (Ascii.eqb c2 LF).
        -- destruct (IH s) as [x Hx]; [simpl in Hn; lia|].
           exists (String LF x). rewrite Hx. reflexivity.
        -- destruct (IH (String c2 s)) as [x Hx]; [simpl in *; lia|].
           exists (String LF x). cbn [append] in Hx. rewrite Hx. reflexivity.
    + destruct (IH s) as [x Hx]; [lia|].
      exists (String c x). rewrite Hx. reflexivity.
Qed.

Lemma splitlines_terminated (l : string) : forall cur,
  no_lf l = true -> splitlines (l ++ nl) cur = [cur ++ l ++ nl].
Proof.
  unfold no_lf. induction l as [|c l IH]; intros cur Hl.
  - reflexivity.
  - simpl in Hl. apply andb_true_iff in Hl as [Hc Hl].
    apply negb_true_iff in Hc. cbn [append splitlines]. rewrite Hc.
    rewrite (IH _ Hl). now rewrite PyFacts.append_assoc.
Qed.

Lemma splitlines_last_terminated (l : string) : forall x cur,
  no_lf l = true ->
  exists hd tl, splitlines (x ++ String LF (l ++ nl)) cur = hd :: tl ++ [l ++ nl].
Proof.
  intros x cur Hl. revert cur.
  induction x as [|c x IH]; intros cur; cbn [append splitlines].
  - change (Ascii.eqb LF LF) with true. cbv iota.
    exists (cur ++ nl), []. now rewrite (splitlines_terminated l EmptyString Hl).
  - destruct (Ascii.eqb c LF).
    + destruct (IH EmptyString) as (hd & tl & E).
      exists (cur ++ nl), (hd :: tl). now rewrite E.
    + apply IH.
Qed.

Lemma not_newline_split (l : string) :
  all_chars not_newline l = true -> no_lf l = true /\ no_cr l = true.
Proof.
  unfold no_lf, no_cr. induction l as [|c l IH]; simpl; [auto|].
  intros H. apply andb_true_iff in H as [Hc Hl].
  unfold not_newline in Hc. apply andb_true_iff in Hc as [H1 H2].
  destruct (IH Hl) as [-> ->]. now rewrite H1, H2.
Qed.

Lemma no_cr_terminated (l : string) : no_cr l = true -> no_cr (l ++ nl) = true.
Proof.
  unfold no_cr. induction l as [|c l IH]; simpl; [reflexivity|].
  intros H. apply andb_true_iff in H as [Hc Hl]. now rewrite Hc, (IH Hl).
Qed.

(** The last line of a text that ends with a line feed, a line [l] and a
    line feed is [l] with its line feed. *)
Lemma readlines_last_terminated (s l : string) :
  all_chars not_newline l = true ->
  exists hd tl, readlines (s ++ String LF (l ++ nl)) = hd :: tl ++ [l ++ nl].
Proof.
  intros Hl. destruct (not_newline_split l Hl) as [Hlf Hcr].
  unfold readlines.
  destruct (universal_newlines_tail_n (l ++ nl) (no_cr_terminated l Hcr)
              (String.length s) s (le_n _)) as [x ->].
  now apply splitlines_last_terminated.
Qed.

End TailFacts.

Lemma row_line_ends_with_error {RT : PyRuntime} (r : row) :
  exists p, row_line r = p ++ row_error r.
Proof.
  unfold row_line, row_fields. cbn [Py.join].
  rewrite <- !PyFacts.append_assoc. eexists. reflexivity.
Qed.

(** ** AsyncConnector: attempts that raise *)

Lemma except_clauses_error_text {RT : PyRuntime} (e : exn) :
  AsyncConnector.except_clauses e = (error_text e, false).
Proof. destruct e; reflexivity. Qed.

(** The row of an attempt whose try block raises. *)
Lemma raising_attempt_row {RT : PyRuntime}
    (url project_name : string) (a : attempt_env) (c : connector) (e : exn) :
  attempt_raises a e ->
  exists c' fr,
    AsyncConnector.attempt url project_name a c =
      (Next, c', [EvGet url (timeout c); EvWrite fr; EvSleep (timeout c)]) /\
    log c' = log c ++ Py.nl ++ row_line fr /\
    row_call_id fr = call_id c' - 1 /\
    row_error fr = error_text e /\
    row_success fr = false /\
    row_response_size fr = 0 /\
    row_response_code fr = None /\
    row_redirect_url fr = EmptyString.
Proof.
  intros [H | (resp & H & [[Hct ->] | (ct & Hct & Hd)])].
  - rewrite (AsyncFacts.attempt_get_raises url project_name a c e H). cbn zeta.
    eexists _, _. split; [reflexivity|].
    cbn [advanced log call_id render_rows failure_row row_call_id row_error
         row_success row_response_size row_response_code row_redirect_url].
    rewrite PyFacts.append_nil_r, except_clauses_error_text.
    repeat split. lia.
  - rewrite (AsyncFacts.attempt_no_content_type url project_name a c resp H Hct).
    cbn zeta. eexists _, _. split; [reflexivity|].
    cbn [advanced log call_id render_rows failure_row row_call_id row_error
         row_success row_response_size row_response_code row_redirect_url].
    rewrite PyFacts.append_nil_r. repeat split. lia.
  - rewrite (AsyncFacts.attempt_decode_raises url project_name a c resp ct e H Hct Hd).
    cbn zeta. eexists _, _. split; [reflexivity|].
    cbn [advanced log call_id render_rows failure_row row_call_id row_error
         row_success row_response_size row_response_code row_redirect_url].
    rewrite PyFacts.append_nil_r, except_clauses_error_text.
    repeat split. lia.
Qed.

(** ** Splitting a line at its semicolons *)

Module SplitFacts.
Import Py.

Lemma split_from_plain (f : string) : forall cur,
  all_chars not_semicolon f = true -> split_from ";" f cur = [cur ++ f].
Proof.
  induction f as [|c f IH]; intros cur Hf; cbn [split_from].
  - now rewrite PyFacts.append_nil_r.
  - simpl in Hf. apply andb_true_iff in Hf as [Hc Hf].
    unfold not_semicolon in Hc. apply negb_true_iff in Hc. rewrite Hc.
    rewrite (IH _ Hf). now rewrite PyFacts.append_assoc.
Qed.

Lemma split_from_field (f rest : string) : forall cur,
  all_chars not_semicolon f = true ->
  split_from ";" (f ++ String ";" rest) cur =
    (cur ++ f) :: split_from ";" rest EmptyString.
Proof.
  induction f as [|c f IH]; intros cur Hf; cbn [append split_from].
  - change (Ascii.eqb ";" ";") with true. cbv iota.
    now rewrite PyFacts.append_nil_r.
  - simpl in Hf. apply andb_true_iff in Hf as [Hc Hf].
    unfold not_semicolon in Hc. apply negb_true_iff in Hc. rewrite Hc.
    rewrite (IH _ Hf). now rewrite PyFacts.append_assoc.
Qed.

(** [';'.join(fs).split(';')] gives [fs] back when no field holds a
    semicolon. *)
Lemma split_join (f : string) (fs : list string) :
  Forall (fun x => all_chars not_semicolon x = true) (f :: fs) ->
  split ";" (join ";" (f :: fs)) = f :: fs.
Proof.
  revert f. induction fs as [|g fs IH]; intros f Hall.
  - inversion Hall; subst. unfold split. cbn [join].
    now rewrite split_from_plain.
  - inversion Hall as [|? ? Hf Hrest]; subst. unfold split.
    change (join ";" (f :: g :: fs)) with (f ++ String ";" (join ";" (g :: fs))).
    rewrite split_from_field by exact Hf. cbn [append]. f_equal.
    now apply IH.
Qed.

End SplitFacts.

(** ** The lines of a log *)

Module LineFacts.
Import Py.

Lemma no_cr_app (a b : string) : no_cr (a ++ b) = no_cr a && no_cr b.
Proof.
  unfold no_cr. induction a as [|c a IH]; simpl; [reflexivity|].
  now rewrite IH, andb_assoc.
Qed.

(** A line and its line feed, followed by more text. *)
Lemma splitlines_line (l rest : string) : forall cur,
  no_lf l = true ->
  splitlines (l ++ String LF rest) cur = (cur ++ l ++ nl) :: splitlines rest EmptyString.
Proof.
  unfold no_lf. induction l as [|c l IH]; intros cur Hl; cbn [append splitlines].
  - change (Ascii.eqb LF LF) with true. reflexivity.
  - simpl in Hl. apply andb_true_iff in Hl as [Hc Hl].
    apply negb_true_iff in Hc. rewrite Hc.
    rewrite (IH _ Hl). now rewrite PyFacts.append_assoc.
Qed.

End LineFacts.

Section ReadBackFacts.
Context {RT : PyRuntime}.

Lemma row_line_not_empty (r : row) : row_line r <> EmptyString.
Proof.
  destruct (row_line_first_field r) as [rest ->].
  destruct (Py.str_int (row_call_id r)); discriminate.
Qed.

Lemma render_rows_no_cr (rs : list row) :
  Forall (fun r => single_line r = true) rs -> no_cr (render_rows rs) = true.
Proof.
  induction 1 as [|r rs Hr _ IH]; [reflexivity|].
  cbn [render_rows]. rewrite !LineFacts.no_cr_app, IH.
  unfold single_line in Hr. now rewrite (proj2 (TailFacts.not_newline_split _ Hr)).
Qed.

Lemma splitlines_rows (rs : list row) : forall r,
  Forall (fun r => single_line r = true) (r :: rs) ->
  Py.splitlines (row_line r ++ render_rows rs) EmptyString = lines_from r rs.
Proof.
  induction rs as [|r' rs IH]; intros r Hall.
  - cbn [render_rows lines_from]. rewrite PyFacts.append_nil_r.
    inversion Hall as [|? ? Hr _]; subst.
    rewrite PyFacts.splitlines_plain; [reflexivity | exact Hr | apply row_line_not_empty].
  - inversion Hall as [|? ? Hr Hrest]; subst.
    cbn [render_rows lines_from].
    change (Py.nl ++ row_line r' ++ render_rows rs)
      with (String Py.LF (row_line r' ++ render_rows rs)).
    rewrite LineFacts.splitlines_line by (now apply TailFacts.not_newline_split).
    cbn [append]. f_equal. now apply IH.
Qed.

(** The lines of a log that holds a header line and one-line records. *)
Lemma readlines_log (h : string) (rs : list row) :
  Py.all_chars Py.not_newline h = true ->
  Forall (fun r => single_line r = true) rs ->
  Py.readlines ((h ++ Py.nl) ++ render_rows rs) = (h ++ Py.nl) :: record_lines rs.
Proof.
  intros Hh Hrs. unfold Py.readlines.
  rewrite TailFacts.universal_newlines_no_cr.
  2:{ rewrite !LineFacts.no_cr_app, (proj2 (TailFacts.not_newline_split _ Hh)).
      now rewrite render_rows_no_cr. }
  rewrite PyFacts.append_assoc.
  change (Py.nl ++ render_rows rs) with (String Py.LF (render_rows rs)).
  rewrite LineFacts.splitlines_line by (now apply TailFacts.not_newline_split).
  cbn [append]. f_equal.
  destruct rs as [|r rs]; [reflexivity|].
  cbn [render_rows record_lines].
  change (Py.nl ++ row_line r ++ render_rows rs)
    with (EmptyString ++ String Py.LF (row_line r ++ render_rows rs)).
  rewrite LineFacts.splitlines_line by reflexivity.
  cbn [append]. f_equal. now apply splitlines_rows.
Qed.

(** The fields of a row read back from its line. *)
Lemma split_row_line (r : row) :
  plain_fields r = true -> Py.split ";" (row_line r) = row_fields r.
Proof.
  intros Hp. unfold plain_fields, text_fields in Hp. cbn [forallb] in Hp.
  repeat (apply andb_true_iff in Hp as [? Hp]).
  unfold row_line, row_fields. apply SplitFacts.split_join.
  repeat constructor; try assumption; try apply PyFacts.str_int_no_semicolon.
  - destruct (row_response_code r); [apply PyFacts.str_int_no_semicolon | reflexivity].
  - destruct (row_success r); reflexivity.
Qed.

Lemma render_rows_concat (rs : list row) :
  render_rows rs = String.concat EmptyString (map (fun r => Py.nl ++ row_line r) rs).
Proof.
  induction rs as [|r rs IH]; [reflexivity|].
  cbn [render_rows map]. rewrite IH.
  destruct rs as [|r' rs]; cbn [map String.concat].
  - now rewrite PyFacts.append_nil_r.
  - now rewrite PyFacts.append_assoc.
Qed.

End ReadBackFacts.

(** ** Restarts and overlapping calls *)

Section RestartFacts.
Context {RT : PyRuntime}.

Lemma sorted_suffix (l1 l2 : list Z) :
  StronglySorted Z.lt (l1 ++ l2) -> StronglySorted Z.lt l2.
Proof.
  induction l1 as [|x l1 IH]; simpl; [auto|].
  intros S. inversion S; subst. now apply IH.
Qed.

Lemma not_sorted_after (l1 l2 : list Z) (x y : Z) :
  y <= x -> ~ StronglySorted Z.lt (l1 ++ x :: y :: l2).
Proof.
  intros Hle S. apply sorted_suffix in S.
  inversion S as [|? ? _ B]; subst. inversion B; subst. lia.
Qed.

(** The attempt of AsyncConnector, cut at the await of the body. *)
Lemma attempt_resumed (url project_name : string) (a : attempt_env) (c : connector) :
  AsyncConnector.attempt url project_name a c =
    (s <- try_block_until_body url a ;;
     attempt_from_body url project_name a s) c.
Proof.
  unfold AsyncConnector.attempt, AsyncConnector.try_block, try_block_until_body,
    attempt_from_body, try_block_from_body, AsyncConnector.finally_clause,
    AsyncConnector.rate_limit, sleep, bind, read, emit, next_id, log_write, ret.
  destruct (http a) as [e|resp]; cbn.
  - now destruct (AsyncConnector.except_clauses e) as [error success].
  - destruct (content_type resp) as [ct|]; cbn; [|reflexivity].
    destruct (AsyncConnector.decode resp ct) as [e|[r size]]; cbn.
    + now destruct (AsyncConnector.except_clauses e) as [error success].
    + now destruct (500 <=? status resp).
Qed.

(** The first row that the loop of AsyncConnector writes carries the next
    call id or the one after it. *)
Lemma attempts_first_row (url project_name : string) (env : nat -> attempt_env)
    (todo i : nat) (c : connector) :
  exists r rest,
    rows_of (snd (AsyncConnector.attempts (S todo) i url project_name env c)) = r :: rest /\
    call_id c <= row_call_id r <= call_id c + 1.
Proof.
  cbn [AsyncConnector.attempts]. unfold bind at 1.
  destruct (http (env i)) as [e|resp] eqn:H.
  { rewrite (AsyncFacts.attempt_get_raises url project_name (env i) c e H). cbn zeta.
    destruct (AsyncConnector.attempts todo (S i) url project_name env _) as [[out c'] tr].
    eexists _, _. split; [reflexivity|]. simpl. lia. }
  destruct (content_type resp) as [ct|] eqn:Hct.
  2:{ rewrite (AsyncFacts.attempt_no_content_type url project_name (env i) c resp H Hct).
      cbn zeta.
      destruct (AsyncConnector.attempts todo (S i) url project_name env _) as [[out c'] tr].
      eexists _, _. split; [reflexivity|]. simpl. lia. }
  destruct (AsyncConnector.decode resp ct) as [e|[r size]] eqn:Hd.
  { rewrite (AsyncFacts.attempt_decode_raises url project_name (env i) c resp ct e H Hct Hd).
    cbn zeta.
    destruct (AsyncConnector.attempts todo (S i) url project_name env _) as [[out c'] tr].
    eexists _, _. split; [reflexivity|]. simpl. lia. }
  destruct (Z_lt_le_dec (status resp) 500) as [Hs|Hs].
  - rewrite (AsyncFacts.attempt_success url project_name (env i) c resp ct r size H Hct Hd Hs).
    cbn zeta. unfold ret.
    eexists _, _. split; [reflexivity|]. simpl. lia.
  - rewrite (AsyncFacts.attempt_server_error url project_name (env i) c resp ct r size
               H Hct Hd Hs).
    cbn zeta.
    destruct (AsyncConnector.attempts todo (S i) url project_name env _) as [[out c'] tr].
    eexists _, _. split; [reflexivity|]. simpl. lia.
Qed.

(** The next call id read from a log whose last record ends with a line
    whose first field is no integer. *)
Lemma recover_after_traceback (s : string) (r : row) (body l : string) :
  row_error r = body ++ Py.nl ++ l ++ Py.nl ->
  Py.all_chars Py.not_newline l = true ->
  Py.int (Py.first_field (l ++ Py.nl)) = None ->
  recover_call_id (Py.readlines (s ++ Py.nl ++ row_line r)) = 0.
Proof.
  intros Herr Hl Hint. destruct (row_line_ends_with_error r) as [p Hp].
  rewrite Hp, Herr.
  replace (s ++ Py.nl ++ p ++ body ++ Py.nl ++ l ++ Py.nl)
    with ((s ++ Py.nl ++ p ++ body) ++ String Py.LF (l ++ Py.nl))
    by (now rewrite !PyFacts.append_assoc).
  destruct (TailFacts.readlines_last_terminated (s ++ Py.nl ++ p ++ body) l Hl)
    as (hd & tl & ->).
  set (ln := l ++ Py.nl) in *.
  unfold recover_call_id.
  replace (List.length (hd :: tl ++ [ln]) <=? 1)%nat with false
    by (symmetry; apply Nat.leb_gt; simpl; rewrite length_app; simpl; lia).
  change (hd :: tl ++ [ln])%list with ((hd :: tl) ++ [ln])%list.
  now rewrite last_last, Hint.
Qed.

(** A log whose last record ends with a traceback is opened again: the
    numbering starts at 0, and the first row of the next call does not have
    a call id above that of the record. *)
Lemma restart_after_traceback (header : list string) (rs : list row) (r : row)
    (c : connector) (body l : string) (n tmo : Z)
    (url project_name : string) (env : nat -> attempt_env) :
  log_inv header (rs ++ [r]) c ->
  row_error r = body ++ Py.nl ++ l ++ Py.nl ->
  Py.all_chars Py.not_newline l = true ->
  Py.int (Py.first_field (l ++ Py.nl)) = None ->
  1 <= row_call_id r -> 0 < n ->
  let c1 := init_with header (Some (log c)) false n tmo in
  let run := AsyncConnector.get url project_name env c1 in
  call_id c1 = 0 /\
  log (snd (fst run)) = log_text header ((rs ++ [r]) ++ rows_of (snd run)) /\
  (exists r' rest, rows_of (snd run) = r' :: rest /\ 0 <= row_call_id r' <= 1) /\
  ~ StronglySorted Z.lt (call_ids ((rs ++ [r]) ++ rows_of (snd run))).
Proof.
  intros [Htext _ _] Herr Hl Hint Hid Hn c1 run.
  assert (H0 : call_id c1 = 0).
  { unfold c1. cbn [init_with open_log call_id]. rewrite Htext.
    unfold log_text. rewrite render_rows_app. cbn [render_rows].
    rewrite PyFacts.append_nil_r, <- !PyFacts.append_assoc.
    rewrite (PyFacts.append_assoc _ Py.nl (row_line r)).
    now apply (recover_after_traceback _ r body l). }
  assert (Hfirst : exists r' rest, rows_of (snd run) = r' :: rest /\
                                   0 <= row_call_id r' <= 1).
  { unfold run. rewrite AsyncFacts.get_unfold.
    replace (Z.to_nat (n_tries c1)) with (S (Z.to_nat (n - 1)))
      by (unfold c1; cbn [init_with n_tries]; lia).
    destruct (attempts_first_row url project_name env (Z.to_nat (n - 1)) 0 c1)
      as (r' & rest & E & Hr). exists r', rest. split; [exact E | lia]. }
  split; [exact H0|]. split; [|split; [exact Hfirst|]].
  - unfold run. rewrite AsyncFacts.get_unfold.
    destruct (AsyncFacts.attempts_shape url project_name env
                (Z.to_nat (n_tries c1)) 0 c1) as (out & tr & k & E & _).
    rewrite E. cbn [fst snd advanced log].
    unfold c1 at 1. cbn [init_with open_log log]. rewrite Htext.
    unfold log_text. now rewrite (render_rows_app (rs ++ [r])), !PyFacts.append_assoc.
  - destruct Hfirst as (r' & rest & -> & Hr).
    unfold call_ids. rewrite <- app_assoc, !map_app. cbn [map app].
    apply not_sorted_after. lia.
Qed.

(** The try block reaches the await of the body with a call id taken. *)
Lemma until_body_awaits (url : string) (a : attempt_env) (c : connector)
    (resp : response) (ct : string) :
  http a = Responds resp -> content_type resp = Some ct ->
  try_block_until_body url a c =
    (AwaitingBody resp ct (call_id c), advanced c 1 EmptyString,
     [EvGet url (timeout c)]).
Proof.
  intros H Hct.
  unfold try_block_until_body, bind, read, emit, next_id, ret. rewrite H. simpl.
  rewrite Hct. simpl. unfold advanced. now rewrite PyFacts.append_nil_r.
Qed.

(** The body of a response with a status below 500 arrives: the row of the
    response is written with the id taken before the await, then the finally
    clause writes its row with the id that is next by now. *)
Lemma from_body_returns (url project_name : string) (a : attempt_env) (c : connector)
    (resp : response) (ct : string) (id : Z) (r : payload) (size : Z) :
  AsyncConnector.decode resp ct = inr (r, size) -> status resp < 500 ->
  let rr := response_row id url project_name a resp size in
  let fr := failure_row (call_id c) url project_name a EmptyString true in
  attempt_from_body url project_name a (AwaitingBody resp ct id) c =
    (Return r, advanced c 1 (render_rows [rr; fr]),
     [EvWrite rr; EvWrite fr; EvSleep (timeout c)]).
Proof.
  intros Hd Hs rr fr. apply Z.leb_gt in Hs.
  unfold attempt_from_body, try_block_from_body, AsyncConnector.finally_clause,
    AsyncConnector.rate_limit, sleep, bind, read, emit, next_id, log_write, ret.
  rewrite Hd. simpl. rewrite Hs. simpl.
  unfold advanced, rr, fr, failure_row, response_row. simpl.
  rewrite PyFacts.append_nil_r, !PyFacts.append_assoc. reflexivity.
Qed.

(** Two calls whose bodies arrive in the other order than their requests
    were sent: the rows of the second call are written first. *)
Lemma overtaken_rows (header : list string) (rs : list row) (c : connector)
    (url first second : string) (a1 a2 : attempt_env)
    (resp1 resp2 : response) (ct1 ct2 : string) (r1 r2 : payload) (size1 size2 : Z) :
  log_inv header rs c ->
  http a1 = Responds resp1 -> content_type resp1 = Some ct1 ->
  AsyncConnector.decode resp1 ct1 = inr (r1, size1) -> status resp1 < 500 ->
  http a2 = Responds resp2 -> content_type resp2 = Some ct2 ->
  AsyncConnector.decode resp2 ct2 = inr (r2, size2) -> status resp2 < 500 ->
  let run := overtaken url first second a1 a2 c in
  fst (fst run) = (Return r1, Return r2) /\
  rows_of (snd run) =
    [response_row (call_id c + 1) url second a2 resp2 size2;
     failure_row (call_id c + 2) url second a2 EmptyString true;
     response_row (call_id c) url first a1 resp1 size1;
     failure_row (call_id c + 3) url first a1 EmptyString true] /\
  log (snd (fst run)) = log_text header (rs ++ rows_of (snd run)) /\
  ~ StronglySorted Z.lt (call_ids (rs ++ rows_of (snd run))).
Proof.
  intros [Htext _ _] H1 Hct1 Hd1 Hs1 H2 Hct2 Hd2 Hs2 run.
  assert (E : exists c',
    run =
      ((Return r1, Return r2), c',
       [EvGet url (timeout c); EvGet url (timeout c);
        EvWrite (response_row (call_id c + 1) url second a2 resp2 size2);
        EvWrite (failure_row (call_id c + 2) url second a2 EmptyString true);
        EvSleep (timeout c);
        EvWrite (response_row (call_id c) url first a1 resp1 size1);
        EvWrite (failure_row (call_id c + 3) url first a1 EmptyString true);
        EvSleep (timeout c)]) /\
    log c' = log c ++ render_rows
       [response_row (call_id c + 1) url second a2 resp2 size2;
        failure_row (call_id c + 2) url second a2 EmptyString true;
        response_row (call_id c) url first a1 resp1 size1;
        failure_row (call_id c + 3) url first a1 EmptyString true]).
  { unfold run, overtaken. unfold bind at 1.
    rewrite (until_body_awaits url a1 c resp1 ct1 H1 Hct1).
    unfold bind at 1.
    rewrite (until_body_awaits url a2 _ resp2 ct2 H2 Hct2).
    unfold bind at 1.
    rewrite (from_body_returns url second a2 _ resp2 ct2 _ r2 size2 Hd2 Hs2).
    cbn zeta. unfold bind at 1.
    rewrite (from_body_returns url first a1 _ resp1 ct1 _ r1 size1 Hd1 Hs1).
    cbn zeta. unfold ret. rewrite !advanced_advanced.
    cbn [advanced call_id timeout app].
    replace (call_id c + 1 + 1) with (call_id c + 2) by lia.
    replace (call_id c + (1 + 1 + 1)) with (call_id c + 3) by lia.
    eexists. split; [reflexivity|].
    cbn [advanced log append render_rows].
    now rewrite !PyFacts.append_nil_r, !PyFacts.append_assoc. }
  destruct E as (c' & -> & Hlog). cbn [fst snd rows_of].
  split; [reflexivity|]. split; [reflexivity|]. split.
  - rewrite Hlog, Htext. unfold log_text.
    now rewrite (render_rows_app rs), !PyFacts.append_assoc.
  - unfold call_ids. rewrite map_app. cbn [map response_row failure_row row_call_id].
    intros S. apply sorted_suffix in S.
    inversion S as [|? ? _ B]; subst.
    inversion B as [|? ? _ B']; subst. inversion B'; subst. lia.
Qed.

End RestartFacts.

(** ** The waits of retried attempts *)

Section WaitFacts.
Context {RT : PyRuntime}.

(** An attempt does not both raise and meet a decoded server error. *)
Lemma raises_or_server_error (a : attempt_env) (e : exn) :
  attempt_raises a e -> decoded_server_error a -> False.
Proof.
  intros [H | (resp & H & [[Hct _] | (ct & Hct & Hd)])]
         (resp' & ct' & r & size & H' & Hct' & Hd' & _); congruence.
Qed.

(** What an attempt that is retried leaves in the trace: the request, one
    row, and the sleeps of the wait [w]. *)
Lemma retried_attempt_waits (url project_name : string) (a : attempt_env) (c : connector) :
  (exists e, attempt_raises a e) \/ decoded_server_error a ->
  exists c' body w,
    AsyncConnector.attempt url project_name a c =
      (Next, c', EvGet url (timeout c) :: body) /\
    timeout c' = timeout c /\
    requests_of body = O /\
    (forall rest, waits_after (body ++ rest) [] = waits_after rest w) /\
    ((exists e, attempt_raises a e) -> w = [timeout c]) /\
    (decoded_server_error a -> w = [timeout c; timeout c]).
Proof.
  intros [[e He] | Hse].
  - destruct (raising_attempt_row url project_name a c e He) as (c' & fr & E & _).
    assert (Ht : timeout c' = timeout c).
    { destruct (AsyncFacts.attempt_shape url project_name a c)
        as (x & body & k & E2 & _). rewrite E in E2.
      injection E2 as _ -> _. reflexivity. }
    exists c', [EvWrite fr; EvSleep (timeout c)], [timeout c].
    repeat split; auto.
    intros Hse. destruct (raises_or_server_error a e He Hse).
  - pose proof Hse as (resp & ct & r & size & H & Hct & Hd & Hs).
    pose proof (AsyncFacts.attempt_server_error url project_name a c resp ct r size
                  H Hct Hd Hs) as E. cbn zeta in E.
    eexists _, [EvSleep (timeout c); EvWrite _; EvSleep (timeout c)],
      [timeout c; timeout c].
    split; [exact E|]. repeat split; auto.
    intros [e He]. destruct (raises_or_server_error a e He Hse).
Qed.

(** The loop, when the first [k] attempts are retried and another attempt
    follows: after each of them comes a request, and the wait before it is
    one sleep after an exception and two after a server error. *)
Lemma attempts_waits (url project_name : string) (env : nat -> attempt_env) (k : nat) :
  forall (todo i : nat) (c : connector),
  (k < todo)%nat ->
  (forall j, (j < k)%nat ->
     (exists e, attempt_raises (env (i + j)%nat) e) \/ decoded_server_error (env (i + j)%nat)) ->
  exists body,
    snd (AsyncConnector.attempts todo i url project_name env c) =
      EvGet url (timeout c) :: body /\
    (k <= requests_of body)%nat /\
    forall j, (j < k)%nat ->
      ((exists e, attempt_raises (env (i + j)%nat) e) ->
         nth_error (waits_after body []) j = Some [timeout c]) /\
      (decoded_server_error (env (i + j)%nat) ->
         nth_error (waits_after body []) j = Some [timeout c; timeout c]).
Proof.
  induction k as [|k IH]; intros todo i c Hk Hall.
  - destruct todo as [|todo]; [lia|].
    destruct (AsyncFacts.attempts_paced url project_name env (S todo) i c)
      as [E | (body & E & _)].
    + exfalso. cbn [AsyncConnector.attempts] in E. unfold bind at 1 in E.
      destruct (AsyncFacts.attempt_shape url project_name (env i) c)
        as (x & body & k & E2 & _). rewrite E2 in E.
      destruct x; [|discriminate E|discriminate E].
      destruct (AsyncConnector.attempts todo (S i) url project_name env _) as [[o c2] t2].
      discriminate E.
    + exists body. split; [exact E|]. split; [lia|]. intros j Hj. lia.
  - destruct todo as [|todo]; [lia|].
    destruct (retried_attempt_waits url project_name (env i) c) as
      (c1 & body0 & w & E & Ht & Hreq & Hw & Hraise & Hse).
    { rewrite <- (Nat.add_0_r i). apply Hall. lia. }
    destruct (IH todo (S i) c1) as (body' & E' & Hreq' & Hwaits).
    { lia. }
    { intros j Hj. replace (S i + j)%nat with (i + S j)%nat by lia. apply Hall. lia. }
    cbn [AsyncConnector.attempts]. unfold bind at 1. rewrite E.
    destruct (AsyncConnector.attempts todo (S i) url project_name env c1)
      as [[out c2] tr2] eqn:E2. cbn [snd] in E'. subst tr2.
    cbn [snd]. exists (body0 ++ EvGet url (timeout c1) :: body')%list.
    split; [reflexivity|]. split.
    + rewrite requests_of_app, requests_of_cons_get. lia.
    + intros j Hj. rewrite Hw. cbn [waits_after].
      destruct j as [|j].
      * rewrite Nat.add_0_r. cbn [nth_error]. split.
        -- intros Hr. now rewrite (Hraise Hr).
        -- intros Hs. now rewrite (Hse Hs).
      * cbn [nth_error]. rewrite <- Ht.
        replace (i + S j)%nat with (S i + j)%nat by lia. apply Hwaits. lia.
Qed.

End WaitFacts.

(** * The claims of the specification *)

(** C1.  In [AsyncConnector.get], when the first [k] responses have a
    status of 500 or more and the next one is a decoded 2xx response, with
    [k] below [n_tries], the payload of that response is returned, but the
    log gains [k + 2] rows and not [k + 1]: one row for each of the [k]
    server errors, then the row of the response and a second row that the
    finally clause writes while [return] leaves the try block.  That last
    row has [success = True], an empty response code and size 0.  Every
    attempt takes two call ids, so the counter advances by [2 * (k + 1)]. *)
Theorem get_success_after_server_errors {RT : PyRuntime}
    (url project_name : string) (env : nat -> attempt_env) (c : connector)
    (k : nat) (resp : response) (ct : string) (r : payload) (size : Z) :
  (k < Z.to_nat (n_tries c))%nat ->
  (forall i, (i < k)%nat -> server_error (env i)) ->
  http (env k) = Responds resp -> 200 <= status resp < 300 ->
  content_type resp = Some ct -> AsyncConnector.decode resp ct = inr (r, size) ->
  exists c' tr earlier,
    AsyncConnector.get url project_name env c = (Value r, c', tr) /\
    rows_of tr =
      (earlier ++
       [response_row (call_id c + 2 * Z.of_nat k) url project_name (env k) resp size;
        failure_row (call_id c + 2 * Z.of_nat k + 1) url project_name (env k)
          EmptyString true])%list /\
    List.length earlier = k /\
    List.length (rows_of tr) = (k + 2)%nat /\
    call_id c' = call_id c + 2 * (Z.of_nat k + 1).
Proof.
  intros Hk Hfail H Hs Hct Hd.
  destruct (AsyncFacts.attempts_retry_then_success url project_name env
              resp ct r size k (Z.to_nat (n_tries c)) 0 c)
    as (c' & tr & earlier & E & Hid & Hrows & Hlen & _); auto; try lia.
  exists c', tr, earlier. rewrite AsyncFacts.get_unfold.
  cbn [Nat.add] in *. repeat split; auto.
  rewrite Hrows, length_app, Hlen. reflexivity.
Qed.

Lemma get_success_after_server_errors_witness :
  exists c' tr earlier,
    @AsyncConnector.get Sample.runtime "http://example.org" "demo"
      (Sample.first_then 1 (Responds Sample.busy_text) (Responds Sample.ok_text))
      (Sample.fresh 3 5) = (Value (PText "hello"), c', tr) /\
    rows_of tr =
      (earlier ++
       [response_row (0 + 2 * Z.of_nat 1) "http://example.org" "demo"
          (Sample.at_time (Responds Sample.ok_text)) Sample.ok_text 5;
        failure_row (0 + 2 * Z.of_nat 1 + 1) "http://example.org" "demo"
          (Sample.at_time (Responds Sample.ok_text)) EmptyString true])%list /\
    List.length earlier = 1%nat /\
    List.length (rows_of tr) = 3%nat /\
    call_id c' = 0 + 2 * (Z.of_nat 1 + 1).
Proof.
  apply (@get_success_after_server_errors Sample.runtime "http://example.org" "demo"
           (Sample.first_then 1 (Responds Sample.busy_text) (Responds Sample.ok_text))
           (Sample.fresh 3 5) 1%nat Sample.ok_text "text/plain" (PText "hello") 5).
  - simpl. lia.
  - intros i Hi. exists Sample.busy_text. destruct i as [|i]; [|lia].
    split; [reflexivity | simpl; lia].
  - reflexivity.
  - simpl. lia.
  - reflexivity.
  - reflexivity.
Defined.

(** C2.  In [AsyncConnector.get], an attempt whose response is decoded and
    has a status of 500 or more sleeps [timeout] seconds, writes one row and
    sleeps [timeout] seconds again before the next iteration.  The row is
    written by the finally clause with the values the try block left in
    [success] and [error]: it has [success = True], not [False], an empty
    error, an empty response code and size 0, and the call id after the one
    the try block took. *)
Theorem server_error_attempt_logged_as_success {RT : PyRuntime}
    (url project_name : string) (a : attempt_env) (c : connector)
    (resp : response) (ct : string) (r : payload) (size : Z) :
  http a = Responds resp -> 500 <= status resp ->
  content_type resp = Some ct -> AsyncConnector.decode resp ct = inr (r, size) ->
  exists c' fr,
    AsyncConnector.attempt url project_name a c =
      (Next, c',
       [EvGet url (timeout c); EvSleep (timeout c); EvWrite fr; EvSleep (timeout c)]) /\
    log c' = log c ++ Py.nl ++ row_line fr /\
    row_call_id fr = call_id c + 1 /\
    row_success fr = true /\
    row_error fr = EmptyString /\
    row_response_code fr = None /\
    row_response_size fr = 0.
Proof.
  intros H Hs Hct Hd.
  rewrite (AsyncFacts.attempt_server_error url project_name a c resp ct r size H Hct Hd Hs).
  cbn zeta. eexists _, _. split; [reflexivity|].
  cbn [advanced log render_rows]. rewrite PyFacts.append_nil_r.
  repeat split.
Qed.

Lemma server_error_attempt_logged_as_success_witness :
  exists c' fr,
    @AsyncConnector.attempt Sample.runtime "http://example.org" "demo"
      (Sample.at_time (Responds Sample.busy_text)) (Sample.fresh 3 5) =
      (Next, c',
       [EvGet "http://example.org" 5; EvSleep 5; EvWrite fr; EvSleep 5]) /\
    log c' = log (Sample.fresh 3 5) ++ Py.nl ++ row_line fr /\
    row_call_id fr = 0 + 1 /\
    row_success fr = true /\
    row_error fr = EmptyString /\
    row_response_code fr = None /\
    row_response_size fr = 0.
Proof.
  apply (@server_error_attempt_logged_as_success Sample.runtime
           "http://example.org" "demo" (Sample.at_time (Responds Sample.busy_text))
           (Sample.fresh 3 5) Sample.busy_text "text/plain" (PText "oops") 4).
  - reflexivity.
  - simpl. lia.
  - reflexivity.
  - reflexivity.
Defined.

(** C3.  In [Connector.get] an attempt that fails does reach the caller:
    when the request raises, when reading the body as JSON raises, or when
    the status is 500 or more, the except clause writes its row with
    [success = False] and then evaluates the name [rate_limit], which raises
    NameError inside the clause.  The call ends with that NameError after
    one attempt and one row; nothing is retried. *)
Theorem connector_get_propagates_name_error {RT : PyRuntime}
    (url project_name : string) (env : nat -> attempt_env) (c : connector) :
  0 < n_tries c -> connector_failure (env 0%nat) = true ->
  exists c' fr,
    Connector.get url project_name env c =
      (Propagated NameError, c', [EvGet url (timeout c); EvWrite fr]) /\
    row_success fr = false.
Proof. apply ConnectorFacts.get_failure_propagates. Qed.

Lemma connector_get_propagates_name_error_witness :
  exists c' fr,
    @Connector.get Sample.runtime "http://example.org" "demo"
      (Sample.always (GetRaises ClientConnectionError)) (Sample.fresh_connector 3 5) =
      (Propagated NameError, c', [EvGet "http://example.org" 5; EvWrite fr]) /\
    row_success fr = false.
Proof.
  apply (@connector_get_propagates_name_error Sample.runtime "http://example.org" "demo"
           (Sample.always (GetRaises ClientConnectionError)) (Sample.fresh_connector 3 5)).
  - simpl. lia.
  - reflexivity.
Defined.

(** C4.  In [AsyncConnector.get], when every one of the [n_tries] attempts
    gets a decoded response with a status of 500 or more, the call returns
    None and the log gains exactly [n_tries] rows, but every one of them has
    [success = True] (and an empty response code): the finally clause writes
    them with the value the try block gave to [success]. *)
Theorem get_all_server_errors {RT : PyRuntime}
    (url project_name : string) (env : nat -> attempt_env) (c : connector) :
  (forall i, (i < Z.to_nat (n_tries c))%nat -> decoded_server_error (env i)) ->
  exists c' tr,
    AsyncConnector.get url project_name env c = (NoValue, c', tr) /\
    List.length (rows_of tr) = Z.to_nat (n_tries c) /\
    Forall (fun row => row_success row = true /\ row_response_code row = None)
      (rows_of tr).
Proof.
  intros Hall. rewrite AsyncFacts.get_unfold.
  destruct (AsyncFacts.attempts_all_server_errors url project_name env
              (Z.to_nat (n_tries c)) 0 c Hall)
    as (c' & tr & E & _ & Hlen & Hrows).
  now exists c', tr.
Qed.

Lemma get_all_server_errors_witness :
  exists c' tr,
    @AsyncConnector.get Sample.runtime "http://example.org" "demo"
      (Sample.always (Responds Sample.busy_text)) (Sample.fresh 2 5) =
      (NoValue, c', tr) /\
    List.length (rows_of tr) = Z.to_nat (n_tries (Sample.fresh 2 5)) /\
    Forall (fun row => row_success row = true /\ row_response_code row = None)
      (rows_of tr).
Proof.
  apply (@get_all_server_errors Sample.runtime "http://example.org" "demo"
           (Sample.always (Responds Sample.busy_text)) (Sample.fresh 2 5)).
  intros i _. exists Sample.busy_text, "text/plain", (PText "oops"), 4.
  repeat split; simpl; lia.
Defined.

(** The call ids of the rows of one log file increase strictly, and so are
    unique, as long as the calls of [get] run one after the other, the
    errors they meet derive from [Exception], and the log is opened again
    only when its last record takes one line: this holds when the log is
    created, it is kept by every call of [get] of either class, and it is
    kept when such a log is opened again without overwriting (the
    constructor then resumes at the id after that of the last record).
    With [n_tries] above 0 a call of [get] appends at least one row, and a
    call of [AsyncConnector.get] returns a payload, or None after all
    [n_tries] attempts. *)
Theorem call_ids_increase_in_the_log {RT : PyRuntime} (header : list string) :
  (forall rs c, log_inv header rs c ->
     StronglySorted Z.lt (call_ids rs) /\ NoDup (call_ids rs)) /\
  (forall ow n tmo, log_inv header [] (init_with header None ow n tmo)) /\
  (forall old n tmo, log_inv header [] (init_with header (Some old) true n tmo)) /\
  (forall rs c n tmo,
     log_inv header rs c ->
     (forall rs' r, rs = (rs' ++ [r])%list -> single_line r = true) ->
     log_inv header rs (init_with header (Some (log c)) false n tmo) /\
     (forall rs' r, rs = (rs' ++ [r])%list ->
        call_id (init_with header (Some (log c)) false n tmo) = row_call_id r + 1)) /\
  (forall url project_name env rs c,
     log_inv header rs c ->
     exists out c' tr,
       AsyncConnector.get url project_name env c = (out, c', tr) /\
       log_inv header (rs ++ rows_of tr) c' /\
       (0 < n_tries c -> rows_of tr <> []) /\
       ((exists r, out = Value r) \/
        (out = NoValue /\ requests_of tr = Z.to_nat (n_tries c)))) /\
  (forall url project_name env rs c,
     log_inv header rs c ->
     exists out c' tr,
       Connector.get url project_name env c = (out, c', tr) /\
       log_inv header (rs ++ rows_of tr) c' /\
       (0 < n_tries c -> rows_of tr <> [])).
Proof.
  split; [|split; [|split; [|split; [|split]]]].
  - intros rs c Hinv. split; [apply (inv_sorted _ _ _ Hinv)|].
    now apply (log_inv_unique header rs c).
  - intros ow n tmo. now apply log_inv_created.
  - intros old n tmo. now apply log_inv_created.
  - intros rs c n tmo Hinv Hlast. now apply log_inv_reopened.
  - intros url project_name env rs c Hinv. rewrite AsyncFacts.get_unfold.
    destruct (AsyncFacts.attempts_shape url project_name env
                (Z.to_nat (n_tries c)) 0 c)
      as (out & tr & k & E & Hk & Hout & Hne & Hinc & Hlt & Hex).
    rewrite E. eexists _, _, _. split; [reflexivity|]. split; [|split].
    + now apply log_inv_advanced.
    + intros Hn. apply Hne. lia.
    + destruct out as [r| |e].
      * left. now exists r.
      * right. split; [reflexivity|]. now apply Hex.
      * now destruct (Hout e).
  - intros url project_name env rs c Hinv. unfold Connector.get.
    destruct (ConnectorFacts.connector_attempts_shape url project_name env
                (Z.to_nat (n_tries c)) 0 c)
      as (out & tr & k & E & Hk & _ & _ & Hne & Hinc & Hlt).
    rewrite E. eexists _, _, _. split; [reflexivity|]. split.
    + now apply log_inv_advanced.
    + intros Hn. apply Hne. lia.
Qed.

Lemma call_ids_increase_in_the_log_witness :
  log_inv AsyncConnector.header (rows_of (snd Sample.json_run))
    (init_with AsyncConnector.header (Some (log (snd (fst Sample.json_run)))) false 3 5) /\
  (forall rs' r, rows_of (snd Sample.json_run) = (rs' ++ [r])%list ->
     call_id (init_with AsyncConnector.header
                (Some (log (snd (fst Sample.json_run)))) false 3 5)
       = row_call_id r + 1).
Proof.
  apply (@call_ids_increase_in_the_log Sample.runtime AsyncConnector.header).
  - split; [reflexivity | repeat constructor | repeat constructor].
  - intros rs' r Heq.
    change (rows_of (snd Sample.json_run))
      with ([@response_row Sample.runtime 0 "http://example.org" "demo"
               (Sample.at_time (Responds Sample.ok_json)) Sample.ok_json 9] ++
            [@failure_row Sample.runtime 1 "http://example.org" "demo"
               (Sample.at_time (Responds Sample.ok_json)) EmptyString true])%list in Heq.
    apply app_inj_tail in Heq as [_ <-]. reflexivity.
Defined.

(** After the two rows of [Sample.json_run], with ids 0 and 1, a connector
    that opens the log again starts at 2. *)
Example reopened_log_resumes_numbering :
  call_id (AsyncConnector.init (Some (log (snd (fst Sample.json_run)))) false 3 5) = 2.
Proof. reflexivity. Qed.

(** The record of [Sample.untyped_run] has id 1 and ends with a traceback of
    several lines: the last line of the log is the end of the traceback, and
    a connector that opens the log again starts at 0. *)
Example traceback_tail_restarts_numbering :
  map row_call_id (rows_of (snd Sample.untyped_run)) = [1] /\
  map single_line (rows_of (snd Sample.untyped_run)) = [false] /\
  call_id (AsyncConnector.init (Some (log (snd (fst Sample.untyped_run)))) false 3 5) = 0.
Proof. repeat split. Qed.

(** Once the log of [Sample.untyped_run] is opened again, the next call
    repeats the id 1; two calls that overlap write the id 0 after the ids 1
    and 2. *)
Example call_ids_of_the_sample_sessions :
  call_ids (rows_of (snd Sample.untyped_run) ++ rows_of (snd Session.second_run)) =
    [1; 0; 1] /\
  ~ NoDup [1; 0; 1] /\
  call_ids (rows_of (snd Session.overtaken_run)) = [1; 2; 0; 3].
Proof.
  split; [reflexivity|]. split; [|reflexivity].
  intros H. inversion H as [|? ? Hin _]; subst. apply Hin. right. now left.
Qed.

(** C5.  The call ids of the rows of one log file do not always increase.
    After a restart: when the last record of the log ends with a traceback
    (its error text ends with a line break, and [int] rejects the first
    field of the last line of that text), a connector that opens the log
    without overwriting starts again at 0; the first row that its next call
    of [AsyncConnector.get] writes has the id 0 or 1, which is not above the
    id of that record as soon as that id is 1 or more.
    With overlapping calls: when two calls on one connector wait for their
    bodies at the same time and the body of the second call arrives first,
    the two rows of the second call, with the ids [call_id + 1] and
    [call_id + 2], are written before the row of the first call, which has
    the id [call_id].
    In both cases the log had increasing call ids before, it holds every
    row written, and its call ids are no longer in increasing order. *)
Theorem call_ids_fall_back_in_the_log {RT : PyRuntime} (header : list string) :
  (forall (rs : list row) (r : row) (c : connector) (body l : string) (n tmo : Z)
          (url project_name : string) (env : nat -> attempt_env),
     log_inv header (rs ++ [r]) c ->
     row_error r = body ++ Py.nl ++ l ++ Py.nl ->
     Py.all_chars Py.not_newline l = true ->
     Py.int (Py.first_field (l ++ Py.nl)) = None ->
     1 <= row_call_id r -> 0 < n ->
     let c1 := init_with header (Some (log c)) false n tmo in
     let run := AsyncConnector.get url project_name env c1 in
     call_id c1 = 0 /\
     log (snd (fst run)) = log_text header ((rs ++ [r]) ++ rows_of (snd run)) /\
     (exists r' rest, rows_of (snd run) = r' :: rest /\ 0 <= row_call_id r' <= 1) /\
     ~ StronglySorted Z.lt (call_ids ((rs ++ [r]) ++ rows_of (snd run)))) /\
  (forall (rs : list row) (c : connector) (url first second : string)
          (a1 a2 : attempt_env) (resp1 resp2 : response) (ct1 ct2 : string)
          (r1 r2 : payload) (size1 size2 : Z),
     log_inv header rs c ->
     http a1 = Responds resp1 -> content_type resp1 = Some ct1 ->
     AsyncConnector.decode resp1 ct1 = inr (r1, size1) -> status resp1 < 500 ->
     http a2 = Responds resp2 -> content_type resp2 = Some ct2 ->
     AsyncConnector.decode resp2 ct2 = inr (r2, size2) -> status resp2 < 500 ->
     let run := overtaken url first second a1 a2 c in
     fst (fst run) = (Return r1, Return r2) /\
     rows_of (snd run) =
       [response_row (call_id c + 1) url second a2 resp2 size2;
        failure_row (call_id c + 2) url second a2 EmptyString true;
        response_row (call_id c) url first a1 resp1 size1;
        failure_row (call_id c + 3) url first a1 EmptyString true] /\
     log (snd (fst run)) = log_text header (rs ++ rows_of (snd run)) /\
     ~ StronglySorted Z.lt (call_ids (rs ++ rows_of (snd run)))).
Proof.
  split.
  - intros rs r c body l n tmo url project_name env.
    apply restart_after_traceback.
  - intros rs c url first second a1 a2 resp1 resp2 ct1 ct2 r1 r2 size1 size2.
    apply overtaken_rows.
Qed.

Lemma call_ids_fall_back_in_the_log_witness :
  (call_id Session.reopened = 0 /\
   log (snd (fst Session.second_run)) =
     log_text AsyncConnector.header
       (rows_of (snd Sample.untyped_run) ++ rows_of (snd Session.second_run)) /\
   (exists r' rest, rows_of (snd Session.second_run) = r' :: rest /\
                    0 <= row_call_id r' <= 1) /\
   ~ StronglySorted Z.lt
       (call_ids (rows_of (snd Sample.untyped_run) ++ rows_of (snd Session.second_run)))) /\
  (fst (fst Session.overtaken_run) =
     (Return (@PJson Sample.runtime [1; 2; 3]), Return (@PText Sample.runtime "hello")) /\
   log (snd (fst Session.overtaken_run)) =
     log_text AsyncConnector.header (rows_of (snd Session.overtaken_run)) /\
   ~ StronglySorted Z.lt (call_ids (rows_of (snd Session.overtaken_run)))).
Proof.
  destruct (@call_ids_fall_back_in_the_log Sample.runtime AsyncConnector.header)
    as [Hrestart Hoverlap].
  split.
  - apply (Hrestart []
             (@failure_row Sample.runtime 1 "http://example.org" "demo"
                (Sample.at_time (Responds Sample.no_content_type))
                (@format_exc Sample.runtime TypeError) false)
             (snd (fst Sample.untyped_run))
             "Traceback (most recent call last):"
             "TypeError: argument of type 'NoneType' is not iterable" 1 5
             "http://example.org" "demo" (Sample.always (Responds Sample.ok_json))).
    + split; [reflexivity | repeat constructor | repeat constructor].
    + reflexivity.
    + reflexivity.
    + reflexivity.
    + simpl. lia.
    + lia.
  - destruct (Hoverlap [] (Sample.fresh 1 5) "http://example.org" "first" "second"
                (Sample.at_time (Responds Sample.ok_json))
                (Sample.at_time (Responds Sample.ok_text))
                Sample.ok_json Sample.ok_text "application/json" "text/plain"
                (@PJson Sample.runtime [1; 2; 3]) (@PText Sample.runtime "hello") 9 5) as (Hout & _ & Hlog & Hids);
      try reflexivity.
    + split; [reflexivity | constructor | constructor].
    + now split.
Defined.

(** C6.  The constructor of either class, on the text of the log file:
    when the file is absent, or present with [overwrite_log] true, the file
    holds the header line alone and numbering starts at 0; when it is
    present and [overwrite_log] is false the text is kept, and the next call
    id is 0 with one line or none, the integer in the first field of the
    last line plus one with more lines, and 0 when that field is no integer.
    After a record that takes one line, numbering resumes at the id after
    that of the record. *)
Theorem init_recovers_call_id {RT : PyRuntime} :
  (forall ow n tmo,
     AsyncConnector.init None ow n tmo =
       {| n_tries := n; timeout := tmo; call_id := 0;
          log := "call_id;project;t;delta_t;url;redirect_url;response_size;response_code;success;error"
                 ++ Py.nl |} /\
     Connector.init None ow n tmo =
       {| n_tries := n; timeout := tmo; call_id := 0;
          log := "id;project;t;delta_t;url;redirect_url;response_size;response_code;success;error"
                 ++ Py.nl |}) /\
  (forall old n tmo,
     AsyncConnector.init (Some old) true n tmo = AsyncConnector.init None true n tmo /\
     Connector.init (Some old) true n tmo = Connector.init None true n tmo) /\
  (forall header old n tmo,
     let c := init_with header (Some old) false n tmo in
     let lines := Py.readlines old in
     let last_id := Py.first_field (last lines EmptyString) in
     log c = old /\ n_tries c = n /\ timeout c = tmo /\
     ((List.length lines <= 1)%nat -> call_id c = 0) /\
     ((1 < List.length lines)%nat ->
        forall v, Py.int last_id = Some v -> call_id c = v + 1) /\
     ((1 < List.length lines)%nat -> Py.int last_id = None -> call_id c = 0)) /\
  (forall header s (r : row) n tmo,
     single_line r = true ->
     call_id (init_with header (Some (s ++ Py.nl ++ row_line r)) false n tmo)
       = row_call_id r + 1).
Proof.
  split; [|split; [|split]].
  - intros ow n tmo. split; reflexivity.
  - intros old n tmo. split; reflexivity.
  - intros header old n tmo. cbn zeta. cbn [init_with open_log log n_tries timeout call_id].
    unfold recover_call_id. repeat split.
    + intros Hle. apply Nat.leb_le in Hle. now rewrite Hle.
    + intros Hlt v Hv. apply Nat.leb_gt in Hlt. now rewrite Hlt, Hv.
    + intros Hlt Hv. apply Nat.leb_gt in Hlt. now rewrite Hlt, Hv.
  - intros header s r n tmo Hline. cbn [init_with open_log call_id].
    now apply recover_after_row.
Qed.

Lemma init_recovers_call_id_witness :
  call_id (init_with AsyncConnector.header
             (Some (log (Sample.fresh 3 5) ++ Py.nl ++
                    row_line (@failure_row Sample.runtime 41 "http://example.org" "demo"
                                (Sample.at_time (GetRaises TimeoutError))
                                "Timeout error" false)))
             false 3 5)
    = row_call_id (@failure_row Sample.runtime 41 "http://example.org" "demo"
                     (Sample.at_time (GetRaises TimeoutError)) "Timeout error" false) + 1.
Proof.
  apply (@init_recovers_call_id Sample.runtime). reflexivity.
Defined.

(** C7.  In [AsyncConnector.get], when the first [k] attempts are retried
    and [k] is below [n_tries], at least [k + 1] requests are made, and the
    sleeps between the request of attempt [i] and the next request are
    exactly these: one sleep of [timeout] when the try block of attempt [i]
    raised; two sleeps of [timeout] each, twice the delay, when attempt [i]
    got a decoded response with a status of 500 or more, one before
    [continue] and one in the finally clause.  The delay does not depend on
    the number of the attempt. *)
Theorem waits_of_retried_attempts {RT : PyRuntime}
    (url project_name : string) (env : nat -> attempt_env) (c : connector) (k : nat) :
  (k < Z.to_nat (n_tries c))%nat ->
  (forall i, (i < k)%nat ->
     (exists e, attempt_raises (env i) e) \/ decoded_server_error (env i)) ->
  let tr := snd (AsyncConnector.get url project_name env c) in
  (k + 1 <= requests_of tr)%nat /\
  forall i, (i < k)%nat ->
    ((exists e, attempt_raises (env i) e) ->
       nth_error (waits_between tr) i = Some [timeout c]) /\
    (decoded_server_error (env i) ->
       nth_error (waits_between tr) i = Some [timeout c; timeout c]).
Proof.
  intros Hk Hall tr. unfold tr. rewrite AsyncFacts.get_unfold.
  destruct (attempts_waits url project_name env k (Z.to_nat (n_tries c)) 0 c Hk Hall)
    as (body & -> & Hreq & Hwaits).
  rewrite requests_of_cons_get. cbn [waits_between]. split; [lia|].
  intros i Hi. exact (Hwaits i Hi).
Qed.

Lemma waits_of_retried_attempts_witness :
  (2 <= requests_of
          (snd (@AsyncConnector.get Sample.runtime "http://example.org" "demo"
                  (Sample.first_then 1 (Responds Sample.busy_text) (Responds Sample.ok_text))
                  (Sample.fresh 2 5))))%nat /\
  nth_error
    (waits_between
       (snd (@AsyncConnector.get Sample.runtime "http://example.org" "demo"
               (Sample.first_then 1 (Responds Sample.busy_text) (Responds Sample.ok_text))
               (Sample.fresh 2 5)))) 0 = Some [5; 5] /\
  total [5; 5] = 10.
Proof.
  assert (Hbusy : @decoded_server_error Sample.runtime
                    (Sample.first_then 1 (Responds Sample.busy_text)
                       (Responds Sample.ok_text) 0)).
  { exists Sample.busy_text, "text/plain", (PText "oops"), 4.
    repeat split; simpl; lia. }
  destruct (@waits_of_retried_attempts Sample.runtime "http://example.org" "demo"
              (Sample.first_then 1 (Responds Sample.busy_text) (Responds Sample.ok_text))
              (Sample.fresh 2 5) 1%nat) as [Hreq Hwaits].
  - simpl. lia.
  - intros i Hi. right. replace i with O by lia. exact Hbusy.
  - split; [exact Hreq|]. split; [|reflexivity].
    apply (Hwaits O); [lia | exact Hbusy].
Defined.

(** C8, as the code has it.  In [AsyncConnector.get], for a response with
    a content type and a status below 500: when the content type does not
    contain [json] the body is read as text, the text is returned and the
    row written for the response has the length of the text as its
    [response_size]; when the content type contains [json] the body is read
    as JSON, the object is returned and the row has the length of
    [json.dumps] of it. *)
Theorem response_size_by_content_type {RT : PyRuntime}
    (url project_name : string) (a : attempt_env) (c : connector)
    (resp : response) (ct : string) :
  http a = Responds resp -> content_type resp = Some ct -> status resp < 500 ->
  (Py.contains "json" ct = false ->
   forall text, body_text resp = inr text ->
   exists c' fr,
     AsyncConnector.attempt url project_name a c =
       (Return (PText text), c',
        [EvGet url (timeout c);
         EvWrite (response_row (call_id c) url project_name a resp (Py.len text));
         EvWrite fr; EvSleep (timeout c)])) /\
  (Py.contains "json" ct = true ->
   forall r, body_json resp = inr r ->
   exists c' fr,
     AsyncConnector.attempt url project_name a c =
       (Return (PJson r), c',
        [EvGet url (timeout c);
         EvWrite (response_row (call_id c) url project_name a resp
                    (Py.len (json_dumps r)));
         EvWrite fr; EvSleep (timeout c)])).
Proof.
  intros H Hct Hs. split.
  - intros Hjson text Htext.
    assert (Hd : AsyncConnector.decode resp ct = inr (PText text, Py.len text))
      by (unfold AsyncConnector.decode; now rewrite Hjson, Htext).
    rewrite (AsyncFacts.attempt_success url project_name a c resp ct _ _ H Hct Hd Hs).
    cbn zeta. eexists _, _. reflexivity.
  - intros Hjson r Hr.
    assert (Hd : AsyncConnector.decode resp ct = inr (PJson r, Py.len (json_dumps r)))
      by (unfold AsyncConnector.decode; now rewrite Hjson, Hr).
    rewrite (AsyncFacts.attempt_success url project_name a c resp ct _ _ H Hct Hd Hs).
    cbn zeta. eexists _, _. reflexivity.
Qed.

Lemma response_size_by_content_type_witness :
  (exists c' fr,
     @AsyncConnector.attempt Sample.runtime "http://example.org" "demo"
       (Sample.at_time (Responds Sample.ok_text)) (Sample.fresh 3 5) =
       (Return (PText "hello"), c',
        [EvGet "http://example.org" 5;
         EvWrite (response_row 0 "http://example.org" "demo"
                    (Sample.at_time (Responds Sample.ok_text)) Sample.ok_text
                    (Py.len "hello"));
         EvWrite fr; EvSleep 5])) /\
  row_response_size
    (@response_row Sample.runtime 0 "http://example.org" "demo"
       (Sample.at_time (Responds Sample.ok_text)) Sample.ok_text (Py.len "hello")) = 5.
Proof.
  split; [|reflexivity].
  apply (@response_size_by_content_type Sample.runtime "http://example.org" "demo"
           (Sample.at_time (Responds Sample.ok_text)) (Sample.fresh 3 5)
           Sample.ok_text "text/plain"); try reflexivity.
Defined.

(** Counterexample to C8 as it is worded, for a response with a status of 500
    or more: the response below has the content type text/plain and the
    body [oops] of 4 characters, and the only row the call logs for it has
    [response_size] 0. *)
Lemma text_response_503_logged_with_size_zero :
  http (Sample.at_time (Responds Sample.busy_text)) = Responds Sample.busy_text /\
  content_type Sample.busy_text = Some "text/plain" /\
  Py.contains "json" "text/plain" = false /\
  body_text Sample.busy_text = inr "oops" /\
  Py.len "oops" = 4 /\
  map row_response_size (rows_of (snd Sample.busy_run)) = [0].
Proof. repeat split. Qed.

(** C9, as the code has it.  A log that either class creates or overwrites
    holds its header line followed by a line feed, with [call_id] as the
    first column in AsyncConnector and [id] in Connector; a log opened
    without overwriting keeps its text.  A call of [get] only appends to the
    text: for each row it writes, in order, a line feed followed by the line
    of the row, and with [n_tries] above 0 it writes at least one row.  The
    line of a row is its ten fields joined by semicolons, and when no text
    field holds a semicolon, splitting the line at the semicolons gives the
    ten fields back in the order of the columns.  The separator comes before
    the record and not after it: read back, a created log to which records
    without line breaks were appended gives the header line, and, when
    there is a record, an empty line and then one line for each record, each
    with its line feed but the last. *)
Theorem log_file_format {RT : PyRuntime} :
  (forall ow n tmo,
     log (AsyncConnector.init None ow n tmo) =
       "call_id;project;t;delta_t;url;redirect_url;response_size;response_code;success;error"
       ++ Py.nl /\
     log (Connector.init None ow n tmo) =
       "id;project;t;delta_t;url;redirect_url;response_size;response_code;success;error"
       ++ Py.nl) /\
  (forall old n tmo,
     log (AsyncConnector.init (Some old) true n tmo) = log (AsyncConnector.init None true n tmo) /\
     log (Connector.init (Some old) true n tmo) = log (Connector.init None true n tmo) /\
     log (AsyncConnector.init (Some old) false n tmo) = old /\
     log (Connector.init (Some old) false n tmo) = old) /\
  (forall url project_name env c,
     exists out c' tr,
       AsyncConnector.get url project_name env c = (out, c', tr) /\
       log c' = log c ++
                String.concat EmptyString (map (fun r => Py.nl ++ row_line r) (rows_of tr)) /\
       (0 < n_tries c -> rows_of tr <> [])) /\
  (forall url project_name env c,
     exists out c' tr,
       Connector.get url project_name env c = (out, c', tr) /\
       log c' = log c ++
                String.concat EmptyString (map (fun r => Py.nl ++ row_line r) (rows_of tr)) /\
       (0 < n_tries c -> rows_of tr <> [])) /\
  (forall r : row,
     let fields :=
       [Py.str_int (row_call_id r); row_project r;
        str_float (row_t r); str_float (row_delta_t r);
        row_url r; row_redirect_url r;
        Py.str_int (row_response_size r);
        match row_response_code r with
        | Some code => Py.str_int code
        | None => EmptyString
        end;
        Py.str_bool (row_success r); row_error r] in
     row_line r = Py.join ";" fields /\
     (plain_fields r = true -> Py.split ";" (row_line r) = fields)) /\
  (forall ow n tmo (rs : list row),
     Forall (fun r => single_line r = true) rs ->
     Py.readlines
       (log (AsyncConnector.init None ow n tmo) ++
        String.concat EmptyString (map (fun r => Py.nl ++ row_line r) rs)) =
       ("call_id;project;t;delta_t;url;redirect_url;response_size;response_code;success;error"
        ++ Py.nl) :: record_lines rs /\
     Py.readlines
       (log (Connector.init None ow n tmo) ++
        String.concat EmptyString (map (fun r => Py.nl ++ row_line r) rs)) =
       ("id;project;t;delta_t;url;redirect_url;response_size;response_code;success;error"
        ++ Py.nl) :: record_lines rs).
Proof.
  split; [|split; [|split; [|split; [|split]]]].
  - intros ow n tmo. split; reflexivity.
  - intros old n tmo. repeat split.
  - intros url project_name env c. rewrite AsyncFacts.get_unfold.
    destruct (AsyncFacts.attempts_shape url project_name env
                (Z.to_nat (n_tries c)) 0 c) as (out & tr & k & E & _ & _ & Hne & _).
    rewrite E. eexists _, _, _. split; [reflexivity|].
    rewrite <- render_rows_concat. split; [reflexivity|].
    intros Hn. apply Hne. lia.
  - intros url project_name env c. unfold Connector.get.
    destruct (ConnectorFacts.connector_attempts_shape url project_name env
                (Z.to_nat (n_tries c)) 0 c) as (out & tr & k & E & _ & _ & _ & Hne & _).
    rewrite E. eexists _, _, _. split; [reflexivity|].
    rewrite <- render_rows_concat. split; [reflexivity|].
    intros Hn. apply Hne. lia.
  - intros r fields. split; [reflexivity|]. apply split_row_line.
  - intros ow n tmo rs Hrs. rewrite <- render_rows_concat.
    split.
    + now apply (readlines_log
        "call_id;project;t;delta_t;url;redirect_url;response_size;response_code;success;error").
    + now apply (readlines_log
        "id;project;t;delta_t;url;redirect_url;response_size;response_code;success;error").
Qed.

Lemma log_file_format_witness :
  Py.readlines (log (snd (fst Sample.json_run))) =
    ["call_id;project;t;delta_t;url;redirect_url;response_size;response_code;success;error"
       ++ Py.nl;
     Py.nl;
     "0;demo;1000.0;2.0;http://example.org;http://example.org/a;9;200;True;" ++ Py.nl;
     "1;demo;1000.0;3.0;http://example.org;;0;;True;"] /\
  Py.split ";" "0;demo;1000.0;2.0;http://example.org;http://example.org/a;9;200;True;" =
    ["0"; "demo"; "1000.0"; "2.0"; "http://example.org"; "http://example.org/a";
     "9"; "200"; "True"; ""].
Proof.
  destruct (@log_file_format Sample.runtime) as (_ & _ & _ & _ & Hfields & Hlines).
  split.
  - destruct (Hlines false 3 5 (rows_of (snd Sample.json_run))) as [H _].
    + repeat constructor.
    + exact H.
  - destruct (Hfields (@response_row Sample.runtime 0 "http://example.org" "demo"
                         (Sample.at_time (Responds Sample.ok_json)) Sample.ok_json 9))
      as [_ H].
    apply H. reflexivity.
Defined.

(** Counterexample to C9 as it is worded, on a log with one record: the text
    is not the header line and the record line, each ended by a line feed;
    read back, it has three lines, and the one after the header is empty. *)
Lemma created_log_has_an_empty_second_line :
  log (snd (fst Sample.failed_run)) <>
    spec_log_text AsyncConnector.header (rows_of (snd Sample.failed_run)) /\
  List.length (rows_of (snd Sample.failed_run)) = 1%nat /\
  List.length (Py.readlines (log (snd (fst Sample.failed_run)))) = 3%nat /\
  nth 1 (Py.readlines (log (snd (fst Sample.failed_run)))) EmptyString = Py.nl.
Proof.
  split; [|repeat split]. vm_compute. discriminate.
Qed.

(** C10.  In [AsyncConnector.get], a response without a Content-Type
    header is not decoded, whatever its status and its body: the membership
    test raises TypeError, the clause for [Exception] catches it, and the
    finally clause writes one row with [success = False], size 0, an empty
    response code, an empty redirect url and the traceback as the error;
    then the loop sleeps and goes on with the next iteration. *)
Theorem missing_content_type_is_a_failure {RT : PyRuntime}
    (url project_name : string) (a : attempt_env) (c : connector)
    (resp : response) :
  http a = Responds resp -> content_type resp = None ->
  exists c' fr,
    AsyncConnector.attempt url project_name a c =
      (Next, c', [EvGet url (timeout c); EvWrite fr; EvSleep (timeout c)]) /\
    log c' = log c ++ Py.nl ++ row_line fr /\
    row_success fr = false /\
    row_response_size fr = 0 /\
    row_response_code fr = None /\
    row_redirect_url fr = EmptyString /\
    row_error fr = format_exc TypeError /\
    forall todo i env, env i = a ->
      AsyncConnector.attempts (S todo) i url project_name env c =
        let '(out, c2, tr2) :=
          AsyncConnector.attempts todo (S i) url project_name env c' in
        (out, c2, [EvGet url (timeout c); EvWrite fr; EvSleep (timeout c)] ++ tr2)%list.
Proof.
  intros H Hct.
  pose proof (AsyncFacts.attempt_no_content_type url project_name a c resp H Hct) as E.
  cbn zeta in E. rewrite E. eexists _, _. split; [reflexivity|].
  cbn [advanced log render_rows]. rewrite PyFacts.append_nil_r.
  repeat split.
  intros todo i env Hi. cbn [AsyncConnector.attempts]. unfold bind at 1.
  rewrite Hi, E. cbn [advanced log render_rows].
  now rewrite PyFacts.append_nil_r.
Qed.

Lemma missing_content_type_is_a_failure_witness :
  exists c' fr,
    @AsyncConnector.attempt Sample.runtime "http://example.org" "demo"
      (Sample.at_time (Responds Sample.no_content_type)) (Sample.fresh 3 5) =
      (Next, c', [EvGet "http://example.org" 5; EvWrite fr; EvSleep 5]) /\
    log c' = log (Sample.fresh 3 5) ++ Py.nl ++ row_line fr /\
    row_success fr = false /\
    row_response_size fr = 0 /\
    row_response_code fr = None /\
    row_redirect_url fr = EmptyString /\
    row_error fr = @format_exc Sample.runtime TypeError /\
    forall todo i env, env i = Sample.at_time (Responds Sample.no_content_type) ->
      AsyncConnector.attempts (S todo) i "http://example.org" "demo" env (Sample.fresh 3 5) =
        let '(out, c2, tr2) :=
          AsyncConnector.attempts todo (S i) "http://example.org" "demo" env c' in
        (out, c2, [EvGet "http://example.org" 5; EvWrite fr; EvSleep 5] ++ tr2)%list.
Proof.
  apply (@missing_content_type_is_a_failure Sample.runtime "http://example.org" "demo"
           (Sample.at_time (Responds Sample.no_content_type)) (Sample.fresh 3 5)
           Sample.no_content_type); reflexivity.
Defined.

(** * Further properties of the code *)

(** ** Rows as text *)

Section RowText.
Context {RT : PyRuntime}.

Lemma semicolons_app (a b : string) :
  semicolons (a ++ b) = (semicolons a + semicolons b)%nat.
Proof.
  induction a as [|c a IH]; simpl; [reflexivity|]. rewrite IH. lia.
Qed.

Lemma semicolons_none (s : string) :
  Py.all_chars Py.not_semicolon s = true -> semicolons s = O.
Proof.
  induction s as [|c s IH]; simpl; [reflexivity|].
  intros H. apply andb_true_iff in H as [Hc Hs].
  unfold Py.not_semicolon in Hc. apply negb_true_iff in Hc.
  rewrite Hc, (IH Hs). reflexivity.
Qed.

(** X8.  The call id of a row can be read back from its line as the
    constructor reads it, whatever the other fields hold: the text before
    the first semicolon of the line is [str] of the id, and [int] of it is
    the id. *)
Theorem call_id_read_back (r : row) :
  Py.first_field (row_line r) = Py.str_int (row_call_id r) /\
  Py.int (Py.first_field (row_line r)) = Some (row_call_id r).
Proof.
  destruct (row_line_first_field r) as [rest ->].
  rewrite PyFacts.first_field_app by apply PyFacts.str_int_no_semicolon.
  split; [reflexivity | apply PyFacts.int_str_int].
Qed.

(** X9.  The fields of a row are written as they are, without quoting or
    escaping: the line of a row has nine separators plus every semicolon
    that the project name, the two rendered floats, the url, the redirect
    url and the error text hold. *)
Theorem row_line_semicolons (r : row) :
  semicolons (row_line r) =
    (9 + semicolons (row_project r) + semicolons (str_float (row_t r)) +
     semicolons (str_float (row_delta_t r)) + semicolons (row_url r) +
     semicolons (row_redirect_url r) + semicolons (row_error r))%nat.
Proof.
  unfold row_line, row_fields. cbn [Py.join].
  rewrite !semicolons_app.
  rewrite !(semicolons_none (Py.str_int _)) by apply PyFacts.str_int_no_semicolon.
  assert (Hcode : semicolons
            match row_response_code r with
            | Some code => Py.str_int code
            | None => EmptyString
            end = O).
  { destruct (row_response_code r); [|reflexivity].
    apply semicolons_none, PyFacts.str_int_no_semicolon. }
  assert (Hbool : semicolons (Py.str_bool (row_success r)) = O)
    by (destruct (row_success r); reflexivity).
  rewrite Hcode, Hbool. simpl. lia.
Qed.

End RowText.

(** ** AsyncConnector: what a call costs *)

Module AsyncMore.
Import AsyncConnector.

Section WithRuntime.
Context {RT : PyRuntime}.
Variables (url project_name : string).

(** The counts of one attempt: its rows, sleeps and call ids, and its last
    row and last action. *)
Lemma attempt_counts a c :
  exists x body k,
    attempt url project_name a c =
      (x, advanced c k (render_rows (rows_of body)), EvGet url (timeout c) :: body) /\
    (forall e, x <> Raise e) /\
    requests_of body = O /\
    List.length (rows_of body) = (match x with Return _ => 2 | _ => 1 end)%nat /\
    (1 <= List.length (sleeps_of body) <= 2)%nat /\
    1 <= k <= 2 /\
    (exists pre, body = (pre ++ [EvSleep (timeout c)])%list) /\
    (exists rs r, rows_of body = (rs ++ [r])%list /\
                  row_call_id r = call_id c + k - 1).
Proof.
  destruct (http a) as [e|resp] eqn:H.
  { rewrite (AsyncFacts.attempt_get_raises url project_name a c e H). cbn zeta.
    eexists Next, [EvWrite _; EvSleep _], 1. split; [reflexivity|]. simpl.
    repeat split; try discriminate; try lia.
    - now exists [EvWrite (failure_row (call_id c) url project_name a
                            (fst (except_clauses e)) false)].
    - eexists [], _. split; [reflexivity | simpl; lia]. }
  destruct (content_type resp) as [ct|] eqn:Hct.
  2:{ rewrite (AsyncFacts.attempt_no_content_type url project_name a c resp H Hct).
      cbn zeta. eexists Next, [EvWrite _; EvSleep _], 2. split; [reflexivity|]. simpl.
      repeat split; try discriminate; try lia.
      - now exists [EvWrite (failure_row (call_id c + 1) url project_name a
                              (format_exc TypeError) false)].
      - eexists [], _. split; [reflexivity | simpl; lia]. }
  destruct (decode resp ct) as [e|[r size]] eqn:Hd.
  { rewrite (AsyncFacts.attempt_decode_raises url project_name a c resp ct e H Hct Hd).
    cbn zeta. eexists Next, [EvWrite _; EvSleep _], 2. split; [reflexivity|]. simpl.
    repeat split; try discriminate; try lia.
    - now exists [EvWrite (failure_row (call_id c + 1) url project_name a
                            (fst (except_clauses e)) false)].
    - eexists [], _. split; [reflexivity | simpl; lia]. }
  destruct (Z_lt_le_dec (status resp) 500) as [Hs|Hs].
  - rewrite (AsyncFacts.attempt_success url project_name a c resp ct r size H Hct Hd Hs).
    cbn zeta. eexists (Return r), [EvWrite _; EvWrite _; EvSleep _], 2.
    split; [reflexivity|]. simpl.
    repeat split; try discriminate; try lia.
    + now exists [EvWrite (response_row (call_id c) url project_name a resp size);
                  EvWrite (failure_row (call_id c + 1) url project_name a EmptyString true)].
    + eexists [_], _. split; [reflexivity | simpl; lia].
  - rewrite (AsyncFacts.attempt_server_error url project_name a c resp ct r size H Hct Hd Hs).
    cbn zeta. eexists Next, [EvSleep _; EvWrite _; EvSleep _], 2.
    split; [reflexivity|]. simpl.
    repeat split; try discriminate; try lia.
    + now exists [EvSleep (timeout c);
                  EvWrite (failure_row (call_id c + 1) url project_name a EmptyString true)].
    + eexists [], _. split; [reflexivity | simpl; lia].
Qed.

Variable env : nat -> attempt_env.

(** The counts of the loop. *)
Lemma attempts_counts todo : forall i c,
  exists out tr k,
    attempts todo i url project_name env c =
      (out, advanced c k (render_rows (rows_of tr)), tr) /\
    (forall e, out <> Propagated e) /\
    (requests_of tr <= todo)%nat /\
    (todo <> O -> (1 <= requests_of tr)%nat) /\
    List.length (rows_of tr) =
      (requests_of tr + match out with Value _ => 1 | _ => 0 end)%nat /\
    (requests_of tr <= List.length (sleeps_of tr) <= 2 * requests_of tr)%nat /\
    Z.of_nat (requests_of tr) <= k <= 2 * Z.of_nat (requests_of tr) /\
    (todo <> O -> exists pre, tr = (pre ++ [EvSleep (timeout c)])%list) /\
    (todo <> O -> exists rs r, rows_of tr = (rs ++ [r])%list /\
                               row_call_id r = call_id c + k - 1).
Proof.
  induction todo as [|todo IH]; intros i c.
  - exists NoValue, [], 0. simpl. unfold ret. rewrite advanced_0.
    unfold requests_of. simpl.
    repeat split; try discriminate; try lia; intros; congruence.
  - destruct (attempt_counts (env i) c)
      as (x & body & k & E & Hx & Hreq & Hrows & Hsl & Hk & (pre & Hpre) & (rs & r & Hlast & Hid)).
    cbn [attempts]. unfold bind at 1. rewrite E.
    destruct x as [|v|e]; [| |now destruct (Hx e)].
    + destruct (IH (S i) (advanced c k (render_rows (rows_of body))))
        as (out & tr & k' & E' & Hout & Hle & Hge & Hrows' & Hsl' & Hk' & Hend & Hlast').
      rewrite E'. exists out, (EvGet url (timeout c) :: body ++ tr)%list, (k + k').
      rewrite advanced_advanced. cbn [rows_of sleeps_of].
      rewrite rows_of_app, sleeps_of_app, render_rows_app.
      rewrite requests_of_cons_get, requests_of_app, Hreq, !length_app, Hrows.
      split; [reflexivity|]. split; [exact Hout|].
      repeat split; try lia.
      * destruct todo as [|todo'].
        -- destruct tr as [|ev tr].
           ++ exists (EvGet url (timeout c) :: pre). rewrite app_nil_r, Hpre. reflexivity.
           ++ simpl in E'. unfold ret in E'. congruence.
        -- destruct (Hend ltac:(discriminate)) as (pre' & ->).
           exists (EvGet url (timeout c) :: body ++ pre')%list.
           cbn [advanced timeout app]. now rewrite app_assoc.
      * destruct todo as [|todo'].
        -- assert (Etr : tr = []) by (simpl in E'; unfold ret in E'; congruence).
           assert (Ek : k' = 0) by lia. subst tr k'.
           exists rs, r. rewrite app_nil_r. split; [exact Hlast | lia].
        -- destruct (Hlast' ltac:(discriminate)) as (rs' & r' & -> & Hid').
           exists (rows_of body ++ rs')%list, r'. rewrite <- app_assoc.
           split; [reflexivity|]. cbn [advanced call_id] in Hid'. lia.
    + exists (Value v), (EvGet url (timeout c) :: body)%list, k.
      unfold ret. rewrite app_nil_r. cbn [rows_of sleeps_of].
      rewrite requests_of_cons_get, Hreq, Hrows.
      split; [reflexivity|]. split; [discriminate|].
      repeat split; try lia.
      * exists (EvGet url (timeout c) :: pre). now rewrite Hpre.
      * exists rs, r. split; [exact Hlast | lia].
Qed.

End WithRuntime.
End AsyncMore.


(** X1.  In [AsyncConnector.get], an attempt whose try block raises, at the
    request or while the response is examined, is not returned from: it
    writes one row with [success = False], size 0, an empty response code
    and an empty redirect url, sleeps [timeout] and goes on.  The error of
    the row is [Connection error] for a ClientConnectionError, [Timeout
    error] for a TimeoutError and the traceback for anything else, and its
    call id is the last one taken. *)
Theorem failed_attempt_is_logged_by_class {RT : PyRuntime}
    (url project_name : string) (a : attempt_env) (c : connector) (e : exn) :
  attempt_raises a e ->
  exists c' fr,
    AsyncConnector.attempt url project_name a c =
      (Next, c', [EvGet url (timeout c); EvWrite fr; EvSleep (timeout c)]) /\
    log c' = log c ++ Py.nl ++ row_line fr /\
    row_call_id fr = call_id c' - 1 /\
    row_error fr = error_text e /\
    row_success fr = false /\
    row_response_size fr = 0 /\
    row_response_code fr = None /\
    row_redirect_url fr = EmptyString.
Proof. apply raising_attempt_row. Qed.

Lemma failed_attempt_is_logged_by_class_witness :
  exists c' fr,
    @AsyncConnector.attempt Sample.runtime "http://example.org" "demo"
      (Sample.at_time (GetRaises TimeoutError)) (Sample.fresh 3 5) =
      (Next, c', [EvGet "http://example.org" 5; EvWrite fr; EvSleep 5]) /\
    log c' = log (Sample.fresh 3 5) ++ Py.nl ++ row_line fr /\
    row_call_id fr = call_id c' - 1 /\
    row_error fr = @error_text Sample.runtime TimeoutError /\
    row_success fr = false /\
    row_response_size fr = 0 /\
    row_response_code fr = None /\
    row_redirect_url fr = EmptyString.
Proof.
  apply (@failed_attempt_is_logged_by_class Sample.runtime "http://example.org" "demo"
           (Sample.at_time (GetRaises TimeoutError)) (Sample.fresh 3 5) TimeoutError).
  left. reflexivity.
Defined.

Lemma attempts_all_raise {RT : PyRuntime} (url project_name : string) (env : nat -> attempt_env)
    (todo : nat) : forall (i : nat) (c : connector),
  (forall j, (j < todo)%nat -> exists e, attempt_raises (env (i + j)%nat) e) ->
  exists c' tr,
    AsyncConnector.attempts todo i url project_name env c = (NoValue, c', tr) /\
    timeout c' = timeout c /\
    requests_of tr = todo /\
    sleeps_of tr = repeat (timeout c) todo /\
    List.length (rows_of tr) = todo /\
    Forall (fun row => row_success row = false /\ row_response_size row = 0 /\
                       row_response_code row = None) (rows_of tr).
Proof.
  induction todo as [|todo IH]; intros i c Hall.
  - exists c, []. simpl. unfold ret. repeat split. constructor.
  - destruct (Hall O) as [e He]; [lia|]. rewrite Nat.add_0_r in He.
    destruct (raising_attempt_row url project_name (env i) c e He)
      as (c1 & fr & E & Hlog & _ & _ & Hs & Hz & Hc & _).
    assert (Ht : timeout c1 = timeout c).
    { destruct (AsyncFacts.attempt_shape url project_name (env i) c)
        as (x & body & k & E2 & _). rewrite E in E2.
      injection E2 as _ -> _. reflexivity. }
    cbn [AsyncConnector.attempts]. unfold bind at 1. rewrite E.
    destruct (IH (S i) c1) as (c' & tr & E' & Ht' & Hreq & Hsl & Hlen & Hrows).
    { intros j Hj. replace (S i + j)%nat with (i + S j)%nat by lia. apply Hall. lia. }
    rewrite E'. eexists _, _. split; [reflexivity|].
    cbn [app rows_of sleeps_of repeat].
    split; [congruence|]. split; [|split; [|split]].
    + rewrite requests_of_cons_get.
      change (requests_of (EvWrite fr :: EvSleep (timeout c) :: tr))
        with (requests_of tr). now rewrite Hreq.
    + rewrite Hsl, Ht. reflexivity.
    + simpl. now rewrite Hlen.
    + constructor; [now repeat split | exact Hrows].
Qed.

(** X2.  In [AsyncConnector.get], when the try block of every one of the
    [n_tries] attempts raises, the call returns None after exactly [n_tries]
    requests, [n_tries] rows and [n_tries] sleeps of [timeout] seconds, and
    every row has [success = False], size 0 and an empty response code. *)
Theorem get_exhausted_by_exceptions {RT : PyRuntime}
    (url project_name : string) (env : nat -> attempt_env) (c : connector) :
  (forall i, (i < Z.to_nat (n_tries c))%nat -> exists e, attempt_raises (env i) e) ->
  exists c' tr,
    AsyncConnector.get url project_name env c = (NoValue, c', tr) /\
    requests_of tr = Z.to_nat (n_tries c) /\
    sleeps_of tr = repeat (timeout c) (Z.to_nat (n_tries c)) /\
    List.length (rows_of tr) = Z.to_nat (n_tries c) /\
    Forall (fun row => row_success row = false /\ row_response_size row = 0 /\
                       row_response_code row = None) (rows_of tr).
Proof.
  intros Hall. rewrite AsyncFacts.get_unfold.
  destruct (attempts_all_raise url project_name env (Z.to_nat (n_tries c)) 0 c Hall)
    as (c' & tr & E & _ & Hrest).
  now exists c', tr.
Qed.

Lemma get_exhausted_by_exceptions_witness :
  exists c' tr,
    @AsyncConnector.get Sample.runtime "http://example.org" "demo"
      (Sample.always (GetRaises ClientConnectionError)) (Sample.fresh 3 5) =
      (NoValue, c', tr) /\
    requests_of tr = Z.to_nat (n_tries (Sample.fresh 3 5)) /\
    sleeps_of tr = repeat (timeout (Sample.fresh 3 5)) (Z.to_nat (n_tries (Sample.fresh 3 5))) /\
    List.length (rows_of tr) = Z.to_nat (n_tries (Sample.fresh 3 5)) /\
    Forall (fun row => row_success row = false /\ row_response_size row = 0 /\
                       row_response_code row = None) (rows_of tr).
Proof.
  apply (@get_exhausted_by_exceptions Sample.runtime "http://example.org" "demo"
           (Sample.always (GetRaises ClientConnectionError)) (Sample.fresh 3 5)).
  intros i _. exists ClientConnectionError. left. reflexivity.
Defined.

(** X3.  A call of [AsyncConnector.get] with [n_tries] above 0 never ends
    without a last sleep of [timeout] seconds: the finally clause sleeps
    after every attempt, also after the one whose payload is returned. *)
Theorem get_sleeps_before_it_returns {RT : PyRuntime}
    (url project_name : string) (env : nat -> attempt_env) (c : connector) :
  0 < n_tries c ->
  exists pre,
    snd (AsyncConnector.get url project_name env c) =
      (pre ++ [EvSleep (timeout c)])%list.
Proof.
  intros Hn. rewrite AsyncFacts.get_unfold.
  destruct (AsyncMore.attempts_counts url project_name env (Z.to_nat (n_tries c)) 0 c)
    as (out & tr & k & E & _ & _ & _ & _ & _ & _ & Hend & _).
  rewrite E. apply Hend. lia.
Qed.

Lemma get_sleeps_before_it_returns_witness :
  exists pre,
    snd Sample.json_run = (pre ++ [EvSleep (timeout (Sample.fresh 3 5))])%list.
Proof.
  apply (@get_sleeps_before_it_returns Sample.runtime "http://example.org" "demo"
           (Sample.always (Responds Sample.ok_json)) (Sample.fresh 3 5)).
  simpl. lia.
Defined.

(** X4.  The work of one call of [AsyncConnector.get] is bounded, for
    attempts that end by a response or by an error that derives from
    [Exception]: there are at most [n_tries] requests; there is one row for
    each request, and one more when a payload is returned; there are
    between one and two sleeps and between one and two call ids taken for
    each request. *)
Theorem get_work_is_bounded {RT : PyRuntime}
    (url project_name : string) (env : nat -> attempt_env) (c : connector) :
  exists out c' tr,
    AsyncConnector.get url project_name env c = (out, c', tr) /\
    (requests_of tr <= Z.to_nat (n_tries c))%nat /\
    List.length (rows_of tr) =
      (requests_of tr + match out with Value _ => 1 | _ => 0 end)%nat /\
    (requests_of tr <= List.length (sleeps_of tr) <= 2 * requests_of tr)%nat /\
    Z.of_nat (requests_of tr) <= call_id c' - call_id c <= 2 * Z.of_nat (requests_of tr).
Proof.
  rewrite AsyncFacts.get_unfold.
  destruct (AsyncMore.attempts_counts url project_name env (Z.to_nat (n_tries c)) 0 c)
    as (out & tr & k & E & _ & Hle & _ & Hrows & Hsl & Hk & _).
  rewrite E. eexists _, _, _. split; [reflexivity|].
  cbn [advanced call_id]. repeat split; try assumption; try lia.
Qed.

(** X11.  After a call of [AsyncConnector.get] with [n_tries] above 0, when
    the last row written takes one line, a connector that opens the log
    without overwriting starts at the very call id the first connector
    would have used next: the last row of a call always carries the last
    id taken. *)
Theorem reopened_connector_continues {RT : PyRuntime}
    (header : list string) (url project_name : string) (env : nat -> attempt_env)
    (c : connector) (n tmo : Z) :
  0 < n_tries c ->
  (forall rs r,
     rows_of (snd (AsyncConnector.get url project_name env c)) = (rs ++ [r])%list ->
     single_line r = true) ->
  call_id (init_with header
             (Some (log (snd (fst (AsyncConnector.get url project_name env c)))))
             false n tmo)
    = call_id (snd (fst (AsyncConnector.get url project_name env c))).
Proof.
  intros Hn. rewrite AsyncFacts.get_unfold.
  destruct (AsyncMore.attempts_counts url project_name env (Z.to_nat (n_tries c)) 0 c)
    as (out & tr & k & E & _ & _ & _ & _ & _ & _ & _ & Hlast).
  rewrite E. cbn [fst snd]. intros Hline.
  destruct Hlast as (rs & r & Hrows & Hid); [lia|].
  cbn [init_with open_log call_id advanced log]. rewrite Hrows, render_rows_app.
  cbn [render_rows]. rewrite PyFacts.append_nil_r, <- !PyFacts.append_assoc.
  rewrite (PyFacts.append_assoc _ Py.nl (row_line r)).
  rewrite recover_after_row by now apply (Hline rs).
  lia.
Qed.

Lemma reopened_connector_continues_witness :
  call_id (init_with AsyncConnector.header
             (Some (log (snd (fst (@AsyncConnector.get Sample.runtime
                                     "http://example.org" "demo"
                                     (Sample.always (GetRaises ClientConnectionError))
                                     (Sample.fresh 1 5))))))
             false 3 5)
    = call_id (snd (fst (@AsyncConnector.get Sample.runtime
                           "http://example.org" "demo"
                           (Sample.always (GetRaises ClientConnectionError))
                           (Sample.fresh 1 5)))).
Proof.
  apply (@reopened_connector_continues Sample.runtime AsyncConnector.header
           "http://example.org" "demo"
           (Sample.always (GetRaises ClientConnectionError)) (Sample.fresh 1 5) 3 5).
  - simpl. lia.
  - intros rs r Heq.
    change (rows_of (snd (@AsyncConnector.get Sample.runtime "http://example.org" "demo"
                            (Sample.always (GetRaises ClientConnectionError))
                            (Sample.fresh 1 5))))
      with ([] ++ [@failure_row Sample.runtime 0 "http://example.org" "demo"
                     (Sample.at_time (GetRaises ClientConnectionError))
                     "Connection error" false])%list in Heq.
    apply app_inj_tail in Heq as [_ <-]. reflexivity.
Defined.


(** ** Connector: what a call does *)

(** X6.  In [Connector.get] with [n_tries] above 0, a first response whose
    body is read as JSON and whose status is below 500 (a 404 as well as a
    200) ends the call: one row is written with [success = True] and the
    status, and the call returns the payload, the status and a call id that
    is the id of that row, so the caller can find the row of its result in
    the log.  One call id is taken and nothing is slept. *)
Theorem connector_get_returns_the_logged_id {RT : PyRuntime}
    (url project_name : string) (env : nat -> attempt_env) (c : connector)
    (resp : response) (r : pyobj) :
  0 < n_tries c ->
  http (env 0%nat) = Responds resp -> body_json resp = inr r -> status resp < 500 ->
  exists c' rr,
    Connector.get url project_name env c =
      (Value (r, status resp, row_call_id rr), c',
       [EvGet url (timeout c); EvWrite rr]) /\
    row_call_id rr = call_id c /\
    row_success rr = true /\
    row_response_code rr = Some (status resp) /\
    row_response_size rr = Py.len (json_dumps r) /\
    row_redirect_url rr = final_url resp /\
    call_id c' = call_id c + 1 /\
    log c' = log c ++ Py.nl ++ row_line rr.
Proof.
  intros Hn H Hj Hs. unfold Connector.get.
  destruct (Z.to_nat (n_tries c)) as [|todo] eqn:Ht; [lia|].
  cbn [Connector.attempts]. unfold bind at 1. cbn [Z.of_nat].
  rewrite (ConnectorFacts.connector_attempt_success url project_name 0 (env 0%nat)
             c resp r H Hj Hs).
  cbn zeta. unfold ret.
  eexists _, (response_row (call_id c) url project_name (env 0%nat) resp
                (Py.len (json_dumps r))).
  split; [reflexivity|].
  cbn [advanced log call_id render_rows]. rewrite PyFacts.append_nil_r.
  repeat split.
Qed.

Lemma connector_get_returns_the_logged_id_witness :
  exists c' rr,
    @Connector.get Sample.runtime "http://example.org" "demo"
      (Sample.always (Responds MoreSample.not_found_json)) (Sample.fresh_connector 3 5) =
      (Value ([4; 0; 4], status MoreSample.not_found_json, row_call_id rr), c',
       [EvGet "http://example.org" 5; EvWrite rr]) /\
    row_call_id rr = call_id (Sample.fresh_connector 3 5) /\
    row_success rr = true /\
    row_response_code rr = Some (status MoreSample.not_found_json) /\
    row_response_size rr = Py.len (@json_dumps Sample.runtime [4; 0; 4]) /\
    row_redirect_url rr = final_url MoreSample.not_found_json /\
    call_id c' = call_id (Sample.fresh_connector 3 5) + 1 /\
    log c' = log (Sample.fresh_connector 3 5) ++ Py.nl ++ row_line rr.
Proof.
  apply (@connector_get_returns_the_logged_id Sample.runtime "http://example.org" "demo"
           (Sample.always (Responds MoreSample.not_found_json))
           (Sample.fresh_connector 3 5) MoreSample.not_found_json [4; 0; 4]).
  - simpl. lia.
  - reflexivity.
  - reflexivity.
  - simpl. lia.
Defined.

Lemma connector_attempt_outcome {RT : PyRuntime}
    (url project_name : string) (n : Z) (a : attempt_env) (c : connector) :
  exists x fr k,
    Connector.attempt n url project_name a c =
      (x, advanced c k (render_rows [fr]), [EvGet url (timeout c); EvWrite fr]) /\
    ((exists v, x = Return v) \/ x = Raise NameError).
Proof.
  destruct (http a) as [e|resp] eqn:H.
  { rewrite (ConnectorFacts.connector_attempt_get_raises url project_name n a c e H).
    cbn zeta. eexists _, _, _. split; [reflexivity | now right]. }
  destruct (body_json resp) as [e|r] eqn:Hj.
  { rewrite (ConnectorFacts.connector_attempt_json_raises url project_name n a c resp e H Hj).
    cbn zeta. eexists _, _, _. split; [reflexivity | now right]. }
  destruct (Z_lt_le_dec (status resp) 500) as [Hs|Hs].
  - rewrite (ConnectorFacts.connector_attempt_success url project_name n a c resp r H Hj Hs).
    cbn zeta. eexists _, _, _. split; [reflexivity | left; eauto].
  - rewrite (ConnectorFacts.connector_attempt_server_error url project_name n a c resp r H Hj Hs).
    cbn zeta. eexists _, _, _. split; [reflexivity | now right].
Qed.

(** X7.  [Connector.get] never retries and never sleeps: with [n_tries]
    above 0, whatever its value and whatever the first attempt meets, the
    call makes exactly one request and writes exactly one row, and it ends
    either with a result or with NameError; it never returns None. *)
Theorem connector_get_makes_one_attempt {RT : PyRuntime}
    (url project_name : string) (env : nat -> attempt_env) (c : connector) :
  0 < n_tries c ->
  exists out c' fr,
    Connector.get url project_name env c =
      (out, c', [EvGet url (timeout c); EvWrite fr]) /\
    requests_of [EvGet url (timeout c); EvWrite fr] = 1%nat /\
    sleeps_of [EvGet url (timeout c); EvWrite fr] = [] /\
    ((exists v, out = Value v) \/ out = Propagated NameError).
Proof.
  intros Hn. unfold Connector.get.
  destruct (Z.to_nat (n_tries c)) as [|todo] eqn:Ht; [lia|].
  destruct (connector_attempt_outcome url project_name (Z.of_nat 0) (env 0%nat) c)
    as (x & fr & k & E & Hx).
  cbn [Connector.attempts]. unfold bind at 1. rewrite E. unfold ret.
  destruct Hx as [[v ->] | ->].
  - eexists _, _, _. split; [reflexivity|]. repeat split. left. eauto.
  - eexists _, _, _. split; [reflexivity|]. repeat split. now right.
Qed.

Lemma connector_get_makes_one_attempt_witness :
  exists out c' fr,
    @Connector.get Sample.runtime "http://example.org" "demo"
      (Sample.always (Responds Sample.busy_text)) (Sample.fresh_connector 10 30) =
      (out, c', [EvGet "http://example.org" 30; EvWrite fr]) /\
    requests_of [EvGet "http://example.org" 30; EvWrite fr] = 1%nat /\
    sleeps_of [EvGet "http://example.org" 30; EvWrite fr] = [] /\
    ((exists v, out = Value v) \/ out = Propagated NameError).
Proof.
  apply (@connector_get_makes_one_attempt Sample.runtime "http://example.org" "demo"
           (Sample.always (Responds Sample.busy_text)) (Sample.fresh_connector 10 30)).
  simpl. lia.
Defined.

(** ** Both classes: no tries *)

(** X5.  With [n_tries] zero or negative, [get] of either class does
    nothing: no request, no row, no sleep, no call id taken, and None is
    returned. *)
Theorem get_without_tries {RT : PyRuntime}
    (url project_name : string) (env : nat -> attempt_env) (c : connector) :
  n_tries c <= 0 ->
  AsyncConnector.get url project_name env c = (NoValue, c, []) /\
  Connector.get url project_name env c = (NoValue, c, []).
Proof.
  intros Hn. unfold AsyncConnector.get, Connector.get.
  replace (Z.to_nat (n_tries c)) with O by lia. split; reflexivity.
Qed.

Lemma get_without_tries_witness :
  @AsyncConnector.get Sample.runtime "http://example.org" "demo"
    (Sample.always (Responds Sample.ok_json)) MoreSample.no_tries =
    (NoValue, MoreSample.no_tries, []) /\
  @Connector.get Sample.runtime "http://example.org" "demo"
    (Sample.always (Responds Sample.ok_json)) MoreSample.no_tries =
    (NoValue, MoreSample.no_tries, []).
Proof.
  apply (@get_without_tries Sample.runtime "http://example.org" "demo"
           (Sample.always (Responds Sample.ok_json)) MoreSample.no_tries).
  simpl. lia.
Defined.

(** ** The constructor after a traceback *)

(** X10.  A row whose error text ends with a line break, such as the
    traceback that [traceback.format_exc] returns, leaves a log whose last
    line is the last line of that text.  When [int] rejects the first field
    of that line, a connector that opens the log without overwriting starts
    again at call id 0, whatever ids the log already holds. *)
Theorem traceback_tail_resets_numbering {RT : PyRuntime}
    (header : list string) (s : string) (r : row) (body l : string) (n tmo : Z) :
  row_error r = body ++ Py.nl ++ l ++ Py.nl ->
  Py.all_chars Py.not_newline l = true ->
  Py.int (Py.first_field (l ++ Py.nl)) = None ->
  call_id (init_with header (Some (s ++ Py.nl ++ row_line r)) false n tmo) = 0.
Proof.
  intros Herr Hl Hint. destruct (row_line_ends_with_error r) as [p Hp].
  cbn [init_with open_log call_id]. rewrite Hp, Herr.
  replace (s ++ Py.nl ++ p ++ body ++ Py.nl ++ l ++ Py.nl)
    with ((s ++ Py.nl ++ p ++ body) ++ String Py.LF (l ++ Py.nl))
    by (now rewrite !PyFacts.append_assoc).
  destruct (TailFacts.readlines_last_terminated (s ++ Py.nl ++ p ++ body) l Hl)
    as (hd & tl & ->).
  set (ln := l ++ Py.nl) in *.
  unfold recover_call_id.
  replace (List.length (hd :: tl ++ [ln]) <=? 1)%nat with false
    by (symmetry; apply Nat.leb_gt; simpl; rewrite length_app; simpl; lia).
  change (hd :: tl ++ [ln])%list with ((hd :: tl) ++ [ln])%list.
  now rewrite last_last, Hint.
Qed.

Lemma traceback_tail_resets_numbering_witness :
  call_id (init_with AsyncConnector.header
             (Some (log (Sample.fresh 1 5) ++ Py.nl ++
                    row_line (@failure_row Sample.runtime 1 "http://example.org" "demo"
                                (Sample.at_time (Responds Sample.no_content_type))
                                (@format_exc Sample.runtime TypeError) false)))
             false 3 5) = 0.
Proof.
  apply (@traceback_tail_resets_numbering Sample.runtime AsyncConnector.header
           (log (Sample.fresh 1 5))
           (@failure_row Sample.runtime 1 "http://example.org" "demo"
              (Sample.at_time (Responds Sample.no_content_type))
              (@format_exc Sample.runtime TypeError) false)
           "Traceback (most recent call last):"
           "TypeError: argument of type 'NoneType' is not iterable" 3 5);
    reflexivity.
Defined.

(** ** The content type test *)

Lemma startswith_app (p s : string) : Py.startswith p (p ++ s) = true.
Proof.
  induction p as [|c p IH]; simpl; [reflexivity|].
  now rewrite Ascii.eqb_refl, IH.
Qed.

Lemma contains_app (sub pre post : string) :
  Py.contains sub (pre ++ sub ++ post) = true.
Proof.
  induction pre as [|c pre IH].
  - cbn [append]. destruct (sub ++ post) eqn:E; cbn [Py.contains];
      rewrite <- E, startswith_app; reflexivity.
  - cbn [append Py.contains]. rewrite IH. apply orb_true_r.
Qed.

(** X12.  In [AsyncConnector.get] the content type is tested by
    containment: every content type in which [json] occurs somewhere, with
    any text before and after it, makes the body be read with
    [response.json()] and measured by the length of [json.dumps]; the text
    of the body is not read. *)
Theorem content_type_with_json_is_read_as_json {RT : PyRuntime}
    (resp : response) (pre post : string) :
  AsyncConnector.decode resp (pre ++ "json" ++ post) =
    match body_json resp with
    | inl e => inl e
    | inr r => inr (PJson r, Py.len (json_dumps r))
    end.
Proof.
  unfold AsyncConnector.decode. now rewrite contains_app.
Qed.
